(** * payu/branch.py: branch checkout, clone and symlink switching

    A shallow embedding of [payu/branch.py] over an explicit world (file
    system, current working directory, repositories) and a trace of what the
    module prints, warns and asks of its collaborators.

    Paths are absolute and canonical: a path is the list of its components
    from the root, and a relative path of the Python code is represented by
    the absolute path it denotes under the current working directory.  The
    file system is a finite map from paths to nodes; symbolic links are
    followed on the last component, up to [MAXSYMLINKS] hops. *)

From stdpp Require Import base option list gmap strings.
From Stdlib Require Import Lia.

Local Open Scope string_scope.
Local Open Scope list_scope.

(** ** Paths *)

Definition Path : Type := list string.

(** [lab_dir_path / experiment_name], [control_path / sym_dir] *)
Definition joinpath (p : Path) (name : string) : Path := p ++ [name].

Definition parent (p : Path) : Path := removelast p.

(** [str(path)] *)
Fixpoint str_path_aux (p : Path) : string :=
  match p with
  | [] => ""
  | c :: q => "/" +:+ c +:+ str_path_aux q
  end.

Definition str_path (p : Path) : string :=
  match p with
  | [] => "/"
  | _ => str_path_aux p
  end.

(** [path.name]: the last component *)
Definition path_name (p : Path) : string := List.last p "".

(** ** File system *)

Inductive Node : Type :=
  | File (content : string)
  | Dir
  | Link (target : Path).

#[global] Instance Node_eq_dec : EqDecision Node.
Proof. solve_decision. Defined.

Abbreviation FS := (gmap Path Node).

(** The kernel gives up (ELOOP) after this many links on one look-up. *)
Definition MAXSYMLINKS : nat := 40.

(** The path reached from [p] by following symbolic links. *)
Fixpoint chase (n : nat) (fs : FS) (p : Path) : Path :=
  match n with
  | O => p
  | S n' =>
      match fs !! p with
      | Some (Link t) => chase n' fs t
      | _ => p
      end
  end.

(** [Path.resolve()] *)
Definition resolve (fs : FS) (p : Path) : Path := chase MAXSYMLINKS fs p.

(** [os.stat]: the node behind [p], links followed; [None] for a missing
    entry, a dangling link or a link loop. *)
Definition stat (fs : FS) (p : Path) : option Node :=
  match fs !! resolve fs p with
  | Some (Link _) => None
  | o => o
  end.

(** [Path.exists()]: follows links, so it is false on a dangling link. *)
Definition path_exists (fs : FS) (p : Path) : bool :=
  match stat fs p with
  | Some _ => true
  | None => false
  end.

(** [Path.is_dir()] *)
Definition is_dir (fs : FS) (p : Path) : bool :=
  match stat fs p with
  | Some Dir => true
  | _ => false
  end.

(** [Path.is_file()] *)
Definition is_file (fs : FS) (p : Path) : bool :=
  match stat fs p with
  | Some (File _) => true
  | _ => false
  end.

(** [os.path.lexists]: an entry of any kind, links not followed. *)
Definition lexists (fs : FS) (p : Path) : bool :=
  match fs !! p with
  | Some _ => true
  | None => false
  end.

(** ** Exceptions and results *)

Inductive Exn : Type :=
  | FileNotFoundError (msg : string)
  | FileExistsError (p : Path)
  | IsADirectoryError (p : Path)
  | NotADirectoryError (p : Path)
  | TypeError (msg : string)
  | AttributeError (msg : string)
  | CollaboratorError (msg : string).

Inductive Result (A : Type) : Type :=
  | Ok (a : A)
  | Raise (e : Exn).
Arguments Ok {A} a.
Arguments Raise {A} e.

(** [Path.unlink()]: removes a file or a link, never a directory. *)
Definition unlink (fs : FS) (p : Path) : Result FS :=
  match fs !! p with
  | None => Raise (FileNotFoundError (str_path p))
  | Some Dir => Raise (IsADirectoryError p)
  | Some _ => Ok (delete p fs)
  end.

(** [Path.symlink_to(target)]: the name must be free and its parent an
    existing directory. *)
Definition symlink_to (fs : FS) (p target : Path) : Result FS :=
  if lexists fs p then Raise (FileExistsError p)
  else if is_dir fs (parent p) then Ok (<[p := Link target]> fs)
  else Raise (FileNotFoundError (str_path p)).

(** Reading a file, links followed. *)
Definition read_file (fs : FS) (p : Path) : Result string :=
  match stat fs p with
  | Some (File c) => Ok c
  | Some Dir => Raise (IsADirectoryError p)
  | _ => Raise (FileNotFoundError (str_path p))
  end.

(** Opening [p] for writing and replacing its content: links are followed,
    a missing file is created in an existing directory. *)
Definition write_file (fs : FS) (p : Path) (c : string) : Result FS :=
  let q := resolve fs p in
  match fs !! q with
  | Some (File _) => Ok (<[q := File c]> fs)
  | Some Dir => Raise (IsADirectoryError p)
  | Some (Link _) => Raise (FileNotFoundError (str_path p))
  | None =>
      if is_dir fs (parent q) then Ok (<[q := File c]> fs)
      else Raise (FileNotFoundError (str_path p))
  end.

(** [Path.is_symlink()] *)
Definition is_symlink (fs : FS) (p : Path) : bool :=
  match fs !! p with
  | Some (Link _) => true
  | _ => false
  end.

(** A method named without its call parentheses ([path.is_file],
    [path.is_symlink]) is the bound method object, and an object is truthy
    whatever the path. *)
Definition bound_method {A : Type} (method : FS -> Path -> A) (p : Path) : bool :=
  true.

(** ** Git objects, as branch.py reads them *)

(** A blob of a commit tree: [blob.name] and the decoded
    [blob.data_stream.read()]. *)
Record Blob : Type := { blob_name : string; blob_data : string }.

(** A [git.Head] (or remote reference): its reference path, its name and
    the blobs at the top of [branch.commit.tree]. *)
Record Head : Type :=
  { head_path : string; head_name : string; head_blobs : list Blob }.

(** References compare by their path. *)
Definition head_eqb (a b : Head) : bool :=
  bool_decide (head_path a = head_path b).

(** A repository: its active branch ([repo.active_branch] raises on a
    detached HEAD), its local heads and its remote references by name. *)
Record Repo : Type :=
  { repo_active : option Head;
    repo_heads : list Head;
    repo_remote_refs : list (string * Head) }.

(** ** Round-trip YAML documents *)

(** A mapping loaded by the round-trip loader keeps its comment lines and
    the order of its entries. *)
Inductive Item : Type :=
  | Comment (text : string)
  | Entry (key : string) (value : string).

Inductive Yaml : Type :=
  | YNull
  | YScalar (s : string)
  | YSeq (elements : list string)
  | YMap (items : list Item).

Fixpoint items_get (items : list Item) (k : string) : option string :=
  match items with
  | [] => None
  | Entry k' v :: rest => if bool_decide (k' = k) then Some v else items_get rest k
  | Comment _ :: rest => items_get rest k
  end.

(** Assignment replaces the value of an existing key in place and appends
    a new key at the end. *)
Fixpoint items_set (items : list Item) (k v : string) : list Item :=
  match items with
  | [] => [Entry k v]
  | Entry k' v' :: rest =>
      if bool_decide (k' = k) then Entry k' v :: rest
      else Entry k' v' :: items_set rest k v
  | Comment c :: rest => Comment c :: items_set rest k v
  end.

(** [config[k] = v] *)
Definition yaml_setitem (y : Yaml) (k v : string) : Result Yaml :=
  match y with
  | YMap items => Ok (YMap (items_set items k v))
  | YNull => Raise (TypeError "'NoneType' object does not support item assignment")
  | YScalar _ => Raise (TypeError "'str' object does not support item assignment")
  | YSeq _ => Raise (TypeError "list indices must be integers or slices, not str")
  end.

(** [metadata.get(k, None)] *)
Definition yaml_get (y : Yaml) (k : string) : Result (option string) :=
  match y with
  | YMap items => Ok (items_get items k)
  | YNull => Raise (AttributeError "'NoneType' object has no attribute 'get'")
  | YScalar _ => Raise (AttributeError "'str' object has no attribute 'get'")
  | YSeq _ => Raise (AttributeError "'list' object has no attribute 'get'")
  end.

(** ** The world and the collaborators *)

Record World : Type :=
  { fs : FS;
    cwd : Path;
    repos : gmap Path Repo }.

Definition set_fs (f : FS) (w : World) : World :=
  {| fs := f; cwd := cwd w; repos := repos w |}.

Definition set_cwd (d : Path) (w : World) : World :=
  {| fs := fs w; cwd := d; repos := repos w |}.

(** The name of the branch checked out in the repository at [control_path]. *)
Definition active_branch_name (w : World) (control_path : Path) : option string :=
  match repos w !! control_path with
  | Some r => head_name <$> repo_active r
  | None => None
  end.

(** [Laboratory]: the attributes branch.py reads. *)
Record Lab : Type := { archive_path : Path; work_path : Path }.

(** [Metadata]: the experiment name, which branch.py reads after setup,
    and the UUID that setup assigns or keeps. *)
Record Meta : Type := { experiment_name : string; meta_uuid : option string }.

(** The modules branch.py imports ([payu.fsops], [payu.laboratory],
    [payu.metadata], [payu.git_utils]) and the YAML library: each function
    acts on the world and returns or raises. *)
Record Env : Type :=
  { DEFAULT_CONFIG_FNAME : string;
    UUID_FIELD : string;
    (* read_config(config_path).get('control_path') *)
    read_config : option Path -> World -> Result (option Path) * World;
    Laboratory : option string -> Path -> option Path -> World -> Result Lab * World;
    Metadata : Path -> string -> Path -> World -> Result Meta * World;
    Metadata_setup : Meta -> bool -> bool -> World -> Result Meta * World;
    git_checkout_branch :
      Path -> string -> bool -> option string -> World -> Result unit * World;
    git_clone : string -> Path -> option string -> World -> Result unit * World;
    get_git_branch : Path -> World -> Result string * World;
    get_git_repository : Path -> World -> Result Repo * World;
    remote_branches_dict : Repo -> World -> Result (list (string * Head)) * World;
    local_branches_dict : Repo -> World -> Result (list (string * Head)) * World;
    (* YAML().load and YAML().dump on text *)
    yaml_load : string -> Result Yaml;
    yaml_dump : Yaml -> string }.

(** What a run of branch.py shows to the outside: what it prints, what it
    warns, and the calls it makes to its collaborators. *)
Inductive Call : Type :=
  | CReadConfig (config_path : option Path)
  | CLaboratory (model_type : option string) (config_path : Path)
      (lab_path : option Path)
  | CMetadata (archive : Path) (branch : string) (config_path : Path)
  | CMetadataSetup (keep_uuid is_new_experiment : bool)
  | CGitCheckoutBranch (control_path : Path) (branch_name : string)
      (is_new_branch : bool) (start_point : option string)
  | CGitClone (repository : string) (directory : Path) (branch : option string)
  | CGetGitBranch (control_path : Path)
  | CGetGitRepository (control_path : Path)
  | CRemoteBranchesDict
  | CLocalBranchesDict.

Inductive Event : Type :=
  | Printed (text : string)
  | Warned (text : string)
  | Called (c : Call).

Record State : Type := { world : World; trace : list Event }.

(** ** A state and exception monad *)

Definition M (A : Type) : Type := State -> Result A * State.

#[global] Instance M_ret : MRet M := fun A a s => (Ok a, s).

#[global] Instance M_bind : MBind M := fun A B f m s =>
  match m s with
  | (Ok a, s') => f a s'
  | (Raise e, s') => (Raise e, s')
  end.

Definition raise {A : Type} (e : Exn) : M A := fun s => (Raise e, s).

(** [try: body finally: cleanup] *)
Definition try_finally {A : Type} (body : M A) (cleanup : M unit) : M A := fun s =>
  match body s with
  | (r, s1) =>
      match cleanup s1 with
      | (Ok _, s2) => (r, s2)
      | (Raise e, s2) => (Raise e, s2)
      end
  end.

Definition emit (ev : Event) : M unit := fun s =>
  (Ok tt, {| world := world s; trace := trace s ++ [ev] |}).

Definition print (text : string) : M unit := emit (Printed text).
Definition warn (text : string) : M unit := emit (Warned text).

Definition get_fs : M FS := fun s => (Ok (fs (world s)), s).

(** A file-system operation: its result replaces the file system. *)
Definition fs_op (op : FS -> Result FS) : M unit := fun s =>
  match op (fs (world s)) with
  | Ok f => (Ok tt, {| world := set_fs f (world s); trace := trace s |})
  | Raise e => (Raise e, s)
  end.

Definition lift {A : Type} (r : Result A) : M A := fun s => (r, s).

(** A call to a collaborator: recorded, then run on the world. *)
Definition call {A : Type} (c : Call) (f : World -> Result A * World) : M A := fun s =>
  match f (world s) with
  | (r, w) => (r, {| world := w; trace := trace s ++ [Called c] |})
  end.

(** [os.getcwd()] *)
Definition getcwd : M Path := fun s =>
  match fs (world s) !! cwd (world s) with
  | Some Dir => (Ok (cwd (world s)), s)
  | _ => (Raise (FileNotFoundError "getcwd"), s)
  end.

(** [os.chdir(path)] *)
Definition chdir (p : Path) : M unit := fun s =>
  match stat (fs (world s)) p with
  | Some Dir =>
      (Ok tt, {| world := set_cwd (resolve (fs (world s)) p) (world s);
                 trace := trace s |})
  | Some _ => (Raise (NotADirectoryError p), s)
  | None => (Raise (FileNotFoundError (str_path p)), s)
  end.

(** [for x in xs: body(x)] *)
Fixpoint for_each {A : Type} (xs : list A) (body : A -> M unit) : M unit :=
  match xs with
  | [] => mret tt
  | x :: rest => body x ;; for_each rest body
  end.

(** ** [str.splitlines()] on UTF-8 text *)

Definition byte_is (a : Ascii.ascii) (n : nat) : bool :=
  bool_decide (Ascii.nat_of_ascii a = n).

(** One-byte line boundaries other than a carriage return: LF, VT, FF, FS,
    GS and RS. *)
Definition is_line_break (a : Ascii.ascii) : bool :=
  byte_is a 10 || byte_is a 11 || byte_is a 12
  || byte_is a 28 || byte_is a 29 || byte_is a 30.

Fixpoint splitlines_from (s : string) (line : string) : list string :=
  match s with
  | EmptyString => if bool_decide (line = "") then [] else [line]
  | String a rest =>
      if byte_is a 13 then
        (* CR, or CR LF as one boundary *)
        match rest with
        | String b rest' =>
            if byte_is b 10 then line :: splitlines_from rest' ""
            else line :: splitlines_from rest ""
        | EmptyString => line :: splitlines_from rest ""
        end
      else if is_line_break a then line :: splitlines_from rest ""
      else
        match rest with
        | String b rest' =>
            if byte_is a 194 && byte_is b 133 then
              (* U+0085 *)
              line :: splitlines_from rest' ""
            else
              match rest' with
              | String c rest'' =>
                  if byte_is a 226 && byte_is b 128
                     && (byte_is c 168 || byte_is c 169) then
                    (* U+2028, U+2029 *)
                    line :: splitlines_from rest'' ""
                  else splitlines_from rest (line +:+ String a "")
              | EmptyString => splitlines_from rest (line +:+ String a "")
              end
        | EmptyString => splitlines_from rest (line +:+ String a "")
        end
  end.

Definition splitlines (s : string) : list string := splitlines_from s "".

(** ** branch.py *)

Definition NO_CONFIG_FOUND_MESSAGE : string :=
"No configuration file found on this branch.
Skipping adding new metadata file and creating archive/work symlinks.

To try find a branch that has config file, you can:
    - Display local branches by running:
        payu branch
    - Or display remote branches by running:
        payu branch --remote

To checkout an existing branch, run:
    payu checkout BRANCH_NAME
Where BRANCH_NAME is the name of the branch".

Section Branch.

Context (E : Env).

(** [yaml.load(path)] *)
Definition yaml_load_path (p : Path) : M Yaml :=
  f ← get_fs;
  text ← lift (read_file f p);
  lift (yaml_load E text).

(** [yaml.dump(config, path)] *)
Definition yaml_dump_path (config : Yaml) (p : Path) : M unit :=
  fs_op (fun f => write_file f p (yaml_dump E config)).

Definition add_restart_to_config (restart_path config_path : Path) : M unit :=
  f ← get_fs;
  (* Check for valid paths *)
  if negb (path_exists f restart_path) || negb (is_dir f restart_path) then
    warn ("Given restart directory " +:+ str_path restart_path +:+ " does not "
          +:+ "exist. Skipping adding 'restart: " +:+ str_path restart_path
          +:+ "' " +:+ "to config file")
  else
    config ← yaml_load_path config_path;
    (* Add in restart path *)
    config ← lift (yaml_setitem config "restart" (str_path restart_path));
    (* Write modified lines back to config *)
    yaml_dump_path config config_path;;
    print ("Added 'restart: " +:+ str_path restart_path
           +:+ "' to configuration file: " +:+ path_name config_path).

Definition get_control_path (config_path : option Path) : M Path :=
  config ← call (CReadConfig config_path) (read_config E config_path);
  match config with
  | Some control_path => mret control_path
  | None => raise (TypeError "expected str, bytes or os.PathLike object, not NoneType")
  end.

Definition check_config_path (config_path : option Path) : M Path :=
  s ← (fun s => (Ok s, s));
  (* the default is a file name relative to the working directory; the
     result of config_path.resolve() is dropped, so the path stays as it
     is written *)
  let shown :=
    match config_path with
    | None => DEFAULT_CONFIG_FNAME E
    | Some p => str_path p
    end in
  let config_path :=
    match config_path with
    | None => joinpath (cwd (world s)) (DEFAULT_CONFIG_FNAME E)
    | Some p => p
    end in
  if negb (path_exists (fs (world s)) config_path)
     || negb (bound_method is_file config_path) then
    print NO_CONFIG_FOUND_MESSAGE;;
    raise (FileNotFoundError ("Configuration file " +:+ shown +:+ " not found"))
  else mret config_path.

Definition switch_symlink (lab_dir_path control_path : Path)
    (experiment_name sym_dir : string) : M unit :=
  let dir_path := joinpath lab_dir_path experiment_name in
  let sym_path := joinpath control_path sym_dir in
  (* Remove symlink if it already exists *)
  f ← get_fs;
  (if path_exists f sym_path && bound_method is_symlink sym_path then
     let previous_path := resolve f sym_path in
     fs_op (fun f => unlink f sym_path);;
     print ("Removed " +:+ sym_dir +:+ " symlink to " +:+ str_path previous_path)
   else mret tt);;
  (* Create symlink, if experiment directory exists in laboratory *)
  f ← get_fs;
  if path_exists f dir_path then
    fs_op (fun f => symlink_to f sym_path dir_path);;
    print ("Added " +:+ sym_dir +:+ " symlink to " +:+ str_path dir_path)
  else mret tt.

Definition checkout_branch (branch_name : string)
    (is_new_branch is_new_experiment keep_uuid : bool)
    (start_point : option string) (restart_path config_path control_path : option Path)
    (model_type : option string) (lab_path : option Path) : M unit :=
  control_path ←
    match control_path with
    | None => get_control_path config_path
    | Some p => mret p
    end;
  (* Checkout branch *)
  call (CGitCheckoutBranch control_path branch_name is_new_branch start_point)
       (git_checkout_branch E control_path branch_name is_new_branch start_point);;
  (* Check config file exists on checked out branch *)
  config_path ← check_config_path config_path;
  (* Initialise Lab and Metadata *)
  lab ← call (CLaboratory model_type config_path lab_path)
             (Laboratory E model_type config_path lab_path);
  metadata ← call (CMetadata (archive_path lab) branch_name config_path)
                  (Metadata E (archive_path lab) branch_name config_path);
  (* Setup Metadata *)
  let is_new_experiment := is_new_experiment || is_new_branch in
  metadata ← call (CMetadataSetup keep_uuid is_new_experiment)
                  (Metadata_setup E metadata keep_uuid is_new_experiment);
  (* Add restart option to config: a Path object is truthy, so the test
     is on the argument being given *)
  match restart_path with
  | Some restart_path => add_restart_to_config restart_path config_path
  | None => mret tt
  end;;
  (* Switch/Remove/Add archive and work symlinks *)
  let experiment := experiment_name metadata in
  switch_symlink (archive_path lab) control_path experiment "archive";;
  switch_symlink (work_path lab) control_path experiment "work".

Definition clone (repository : string) (directory : Path)
    (branch new_branch_name : option string) (keep_uuid : bool)
    (model_type : option string) (config_path lab_path restart_path : option Path)
    : M unit :=
  (* git clone the repository *)
  call (CGitClone repository directory branch)
       (git_clone E repository directory branch);;
  (* Resolve directory to an absolute path *)
  f ← get_fs;
  let control_path := resolve f directory in
  owd ← getcwd;
  try_finally
    ((* cd into cloned directory *)
     chdir control_path;;
     match new_branch_name with
     | Some new_branch_name =>
         (* Create and checkout new branch *)
         checkout_branch new_branch_name true false keep_uuid None
           restart_path config_path (Some control_path) model_type lab_path
     | None =>
         (* Checkout branch *)
         branch ←
           match branch with
           | None => call (CGetGitBranch control_path)
                          (get_git_branch E control_path)
           | Some b => mret b
           end;
         checkout_branch branch false true keep_uuid None
           restart_path config_path (Some control_path) model_type lab_path
     end)
    ((* Change back to original working directory *)
     chdir owd);;
  print ("To change directory to control directory run:
  cd " +:+ str_path directory).

(** The scan of the committed blobs: whether a config file is there, and
    the content of the last metadata file. *)
Definition scan_blobs (blobs : list Blob) : bool * option string :=
  fold_left
    (fun acc blob =>
       (if bool_decide (blob_name blob = "config.yaml") then true else fst acc,
        if bool_decide (blob_name blob = "metadata.yaml") then Some (blob_data blob)
        else snd acc))
    blobs (false, None).

Definition print_branch_metadata (branch : Head) (verbose : bool) : M unit :=
  let '(contains_config, metadata_content) := scan_blobs (head_blobs branch) in
  (* Print branch info *)
  if negb contains_config then print "    No config file found"
  else
    match metadata_content with
    | None => print "    No metadata file found"
    | Some metadata_content =>
        if verbose then
          (* Print all metadata *)
          for_each (splitlines metadata_content)
                   (fun line => print ("    " +:+ line))
        else
          (* Print uuid *)
          metadata ← lift (yaml_load E metadata_content);
          uuid ← lift (yaml_get metadata (UUID_FIELD E));
          match uuid with
          | Some uuid => print ("    " +:+ UUID_FIELD E +:+ ": " +:+ uuid)
          | None => print "    No UUID in metadata file"
          end
    end.

(** [repo.active_branch] *)
Definition active_branch (repo : Repo) : M Head :=
  match repo_active repo with
  | Some h => mret h
  | None => raise (TypeError "HEAD is a detached symbolic reference")
  end.

Definition list_branches (config_path : option Path) (verbose remote : bool)
    : M unit :=
  control_path ← get_control_path config_path;
  repo ← call (CGetGitRepository control_path) (get_git_repository E control_path);
  current_branch ← active_branch repo;
  print ("* Current Branch: " +:+ head_name current_branch);;
  print_branch_metadata current_branch verbose;;
  listing ←
    (if remote then
       branches ← call CRemoteBranchesDict (remote_branches_dict E repo);
       mret (branches, "Remote Branch")
     else
       branches ← call CLocalBranchesDict (local_branches_dict E repo);
       mret (branches, "Branch"));
  for_each (fst listing)
    (fun item =>
       if negb (head_eqb (snd item) current_branch) then
         print (snd listing +:+ ": " +:+ fst item);;
         print_branch_metadata (snd item) verbose
       else mret tt).

End Branch.

(** ** The file-system effect of [switch_symlink], as a function

    The two phases of [switch_symlink] on the file system alone: the entry
    left behind when the removal raises is the one found, and a creation
    that raises leaves what the removal left. *)

Definition removal_phase (f : FS) (sym_path : Path) : Result FS :=
  if path_exists f sym_path && bound_method is_symlink sym_path
  then unlink f sym_path
  else Ok f.

Definition creation_phase (f : FS) (sym_path dir_path : Path) : Result FS :=
  if path_exists f dir_path then symlink_to f sym_path dir_path else Ok f.

Definition switch_fs (f : FS) (sym_path dir_path : Path) : FS :=
  match removal_phase f sym_path with
  | Raise _ => f
  | Ok f1 =>
      match creation_phase f1 sym_path dir_path with
      | Raise _ => f1
      | Ok f2 => f2
      end
  end.

(** ** Auxiliary notions for the statements *)

(** The path that [check_config_path] checks and returns. *)
Definition resolved_config_path (E : Env) (config_path : option Path) (w : World)
    : Path :=
  match config_path with
  | None => joinpath (cwd w) (DEFAULT_CONFIG_FNAME E)
  | Some p => p
  end.

(** How [check_config_path] names that path in its error message. *)
Definition shown_config_path (E : Env) (config_path : option Path) : string :=
  match config_path with
  | None => DEFAULT_CONFIG_FNAME E
  | Some p => str_path p
  end.

(** The first step of [checkout_branch]: the control path given, or read
    from the configuration. *)
Definition control_path_step (E : Env) (config_path control_path : option Path)
    : M Path :=
  match control_path with
  | None => get_control_path E config_path
  | Some p => mret p
  end.

(** A run of [checkout_branch] reaches metadata setup: the control path
    is found, git checks the branch out, the configuration file is there
    and the Laboratory and Metadata objects are built. *)
Definition reaches_metadata_setup (E : Env) (branch_name : string)
    (is_new_branch : bool) (start_point : option string)
    (config_path control_path : option Path) (model_type : option string)
    (lab_path : option Path) (s : State) : Prop :=
  ∃ cp s1 w2 lab w3 m w4,
    control_path_step E config_path control_path s = (Ok cp, s1)
    ∧ git_checkout_branch E cp branch_name is_new_branch start_point (world s1)
      = (Ok tt, w2)
    ∧ path_exists (fs w2) (resolved_config_path E config_path w2) = true
    ∧ Laboratory E model_type (resolved_config_path E config_path w2) lab_path w2
      = (Ok lab, w3)
    ∧ Metadata E (archive_path lab) branch_name
        (resolved_config_path E config_path w2) w3
      = (Ok m, w4).

(** The entries that assign the [restart] key. *)
Definition is_restart_entry (i : Item) : bool :=
  match i with
  | Entry k _ => bool_decide (k = "restart")
  | Comment _ => false
  end.

(** The calls to metadata setup in a trace, with their flags
    [(keep_uuid, is_new_experiment)]. *)
Definition setup_calls (tr : list Event) : list (bool * bool) :=
  omap (fun ev =>
          match ev with
          | Called (CMetadataSetup k n) => Some (k, n)
          | _ => None
          end) tr.

(** The calls to [git_checkout_branch] in a trace, with their arguments. *)
Definition git_checkout_calls (tr : list Event)
    : list (Path * string * bool * option string) :=
  omap (fun ev =>
          match ev with
          | Called (CGitCheckoutBranch cp b nb sp) => Some (cp, b, nb, sp)
          | _ => None
          end) tr.

(** Output events: what is printed or warned, as opposed to calls. *)
Definition is_output (ev : Event) : Prop :=
  match ev with
  | Called _ => False
  | _ => True
  end.

(** A computation that calls no collaborator: it only extends the trace,
    with output. *)
Definition quiet {A : Type} (m : M A) : Prop :=
  ∀ s, ∃ out, trace (snd (m s)) = trace s ++ out ∧ Forall is_output out.

(** A computation that leaves the directory [d] in place. *)
Definition keeps_dir (d : Path) {A : Type} (m : M A) : Prop :=
  ∀ s, fs (world s) !! d = Some Dir → fs (world (snd (m s))) !! d = Some Dir.

(** The same of a collaborator, whatever the world it is called in. *)
Definition leaves_dir (d : Path) {A : Type} (f : World → Result A * World) : Prop :=
  ∀ w, fs w !! d = Some Dir → fs (snd (f w)) !! d = Some Dir.

(** None of the collaborators that [clone] reaches removes the directory
    [d]. *)
Definition collaborators_leave_dir (E : Env) (d : Path) : Prop :=
  (∀ repository directory branch, leaves_dir d (git_clone E repository directory branch))
  ∧ (∀ cp, leaves_dir d (get_git_branch E cp))
  ∧ (∀ cp b nb sp, leaves_dir d (git_checkout_branch E cp b nb sp))
  ∧ (∀ mt cfg lab, leaves_dir d (Laboratory E mt cfg lab))
  ∧ (∀ archive b cfg, leaves_dir d (Metadata E archive b cfg))
  ∧ (∀ m k n, leaves_dir d (Metadata_setup E m k n)).

(** ** The listing of branches, in the words of the specification *)

(** The committed tree has a blob of that name. *)
Definition has_blob (name : string) (branch : Head) : bool :=
  existsb (fun b => bool_decide (blob_name b = name)) (head_blobs branch).

(** The content of the blob of that name (of the last one, should the list
    hold several). *)
Fixpoint blob_content (name : string) (blobs : list Blob) : option string :=
  match blobs with
  | [] => None
  | b :: rest =>
      match blob_content name rest with
      | Some text => Some text
      | None => if bool_decide (blob_name b = name) then Some (blob_data b) else None
      end
  end.

(** The summary of one branch: no config file, else no metadata file, else
    every line of the metadata file when [verbose], and otherwise its UUID
    field or the report that it has none. *)
Definition summary_spec (E : Env) (branch : Head) (verbose : bool)
    : Result (list string) :=
  if negb (has_blob "config.yaml" branch) then Ok ["    No config file found"]
  else
    match blob_content "metadata.yaml" (head_blobs branch) with
    | None => Ok ["    No metadata file found"]
    | Some text =>
        if verbose then Ok (map (fun line => "    " +:+ line) (splitlines text))
        else
          match yaml_load E text with
          | Raise e => Raise e
          | Ok metadata =>
              match yaml_get metadata (UUID_FIELD E) with
              | Raise e => Raise e
              | Ok (Some u) => Ok ["    " +:+ UUID_FIELD E +:+ ": " +:+ u]
              | Ok None => Ok ["    No UUID in metadata file"]
              end
          end
    end.

(** The lines printed for a list of branches, each under its label, up to
    the first metadata file that does not parse. *)
Fixpoint listing_spec (E : Env) (label : string) (verbose : bool)
    (entries : list (string * Head)) : list string * option Exn :=
  match entries with
  | [] => ([], None)
  | (name, branch) :: rest =>
      match summary_spec E branch verbose with
      | Ok lines =>
          let '(more, err) := listing_spec E label verbose rest in
          ((label +:+ ": " +:+ name) :: lines ++ more, err)
      | Raise e => ([label +:+ ": " +:+ name], Some e)
      end
  end.

(** The branches of the chosen set other than the active one. *)
Definition other_branches (current : Head) (branches : list (string * Head))
    : list (string * Head) :=
  List.filter (fun item => negb (head_eqb (snd item) current)) branches.

(** The lines printed in a trace. *)
Definition printed (tr : list Event) : list string :=
  omap (fun ev => match ev with Printed text => Some text | _ => None end) tr.

(** The listing as one would have it were the summary the plain one in
    every mode: the active branch first, then the other branches, each with
    its UUID field or the report of what is missing. *)
Definition lists_plain_summaries (E : Env) (config_path : option Path)
    (verbose remote : bool) (s : State) : Prop :=
  ∀ cp s1 repo w2 current current_lines branches w3,
    get_control_path E config_path s = (Ok cp, s1) →
    get_git_repository E cp (world s1) = (Ok repo, w2) →
    repo_active repo = Some current →
    summary_spec E current false = Ok current_lines →
    (if remote then remote_branches_dict E repo w2 else local_branches_dict E repo w2)
    = (Ok branches, w3) →
    printed (trace (snd (list_branches E config_path verbose remote s)))
    = printed (trace s1)
      ++ ("* Current Branch: " +:+ head_name current) :: current_lines
      ++ fst (listing_spec E (if remote then "Remote Branch" else "Branch") false
                (other_branches current branches)).

(** ** A small installation

    A concrete instance of the collaborators, for running the embedding on
    examples. *)

Module Demo.

(** Modelled from the spec: [DEFAULT_CONFIG_FNAME] of payu.fsops, the
    well-known file name [config.yaml] of the control directory. *)
Definition config_fname : string := "config.yaml".

(** Modelled from the spec: [UUID_FIELD] of payu.metadata, the field
    printed as [uuid: abc-123] in the listing of branches. *)
Definition uuid_field : string := "uuid".

(** A line-based reading of a flat YAML mapping: [key: value] lines are
    entries; comment lines, blank lines and anything else are kept as they
    are. *)
Fixpoint split_key (line key : string) : option (string * string) :=
  match line with
  | EmptyString => None
  | String a rest =>
      if byte_is a 58 then
        match rest with
        | EmptyString => Some (key, "")
        | String b value =>
            if byte_is b 32 then Some (key, value)
            else split_key rest (key +:+ String a "")
        end
      else split_key rest (key +:+ String a "")
  end.

Definition parse_line (line : string) : Item :=
  match line with
  | String a _ =>
      if byte_is a 35 then Comment line
      else
        match split_key line "" with
        | Some (k, v) => Entry k v
        | None => Comment line
        end
  | EmptyString => Comment line
  end.

Definition load (text : string) : Result Yaml :=
  if bool_decide (text = "") then Ok YNull
  else Ok (YMap (map parse_line (splitlines text))).

Definition render (i : Item) : string :=
  match i with
  | Comment c => c
  | Entry k v => k +:+ ": " +:+ v
  end.

Definition dump (y : Yaml) : string :=
  match y with
  | YMap items => foldr (fun i rest => render i +:+ "
" +:+ rest) "" items
  | YScalar s => s
  | _ => ""
  end.

(** Modelled from the spec: [read_config] of payu.fsops, whose
    [control_path] setting is the directory of the configuration file, the
    current directory when no path is given. *)
Definition control_of_config (config_path : option Path) (w : World)
    : Result (option Path) * World :=
  match config_path with
  | Some p => (Ok (Some (parent p)), w)
  | None => (Ok (Some (cwd w)), w)
  end.

(** Modelled from the spec: [Laboratory] of payu.laboratory, which resolves
    the archive and work roots under the laboratory directory. *)
Definition laboratory (model_type : option string) (config_path : Path)
    (lab_path : option Path) (w : World) : Result Lab * World :=
  let root := default ["lab"] lab_path in
  (Ok {| archive_path := joinpath root "archive"; work_path := joinpath root "work" |},
   w).

(** Modelled from the spec: [Metadata] of payu.metadata, which owns the
    UUID and the experiment name; here the UUID is read from the metadata
    file next to the configuration file. *)
Definition metadata (archive : Path) (branch : string) (config_path : Path)
    (w : World) : Result Meta * World :=
  let known :=
    match read_file (fs w) (joinpath (parent config_path) "metadata.yaml") with
    | Ok text =>
        match load text with
        | Ok (YMap items) => items_get items uuid_field
        | _ => None
        end
    | Raise _ => None
    end in
  (Ok {| experiment_name := "ctrl-" +:+ branch; meta_uuid := known |}, w).

(** Modelled from the spec: metadata setup, where [keep_uuid] keeps a UUID
    that is there and [is_new_experiment] otherwise mints one. *)
Definition metadata_setup (m : Meta) (keep_uuid is_new_experiment : bool)
    (w : World) : Result Meta * World :=
  let fresh := Some "0f4f9c1e-new" in
  let u :=
    match meta_uuid m with
    | Some u => if keep_uuid then Some u else if is_new_experiment then fresh else Some u
    | None => fresh
    end in
  (Ok {| experiment_name := experiment_name m; meta_uuid := u |}, w).

Definition find_head (name : string) (heads : list Head) : option Head :=
  List.find (fun h => bool_decide (head_name h = name)) heads.

(** The work tree holds regular files: checking a tree out or away never
    touches a directory. *)
Definition drop_file (p : Path) (f : FS) : FS :=
  match f !! p with
  | Some (File _) => delete p f
  | _ => f
  end.

Definition put_file (p : Path) (content : string) (f : FS) : FS :=
  match f !! p with
  | Some Dir => f
  | _ => <[p := File content]> f
  end.

Definition remove_tree (control_path : Path) (blobs : list Blob) (f : FS) : FS :=
  foldr (fun b g => drop_file (joinpath control_path (blob_name b)) g) f blobs.

Definition write_tree (control_path : Path) (blobs : list Blob) (f : FS) : FS :=
  foldr (fun b g => put_file (joinpath control_path (blob_name b)) (blob_data b) g)
        f blobs.

Definition switch_to (control_path : Path) (r : Repo) (h : Head) (heads : list Head)
    (w : World) : World :=
  let old := match repo_active r with Some a => head_blobs a | None => [] end in
  {| fs := write_tree control_path (head_blobs h)
             (remove_tree control_path old (fs w));
     cwd := cwd w;
     repos := <[control_path :=
                  {| repo_active := Some h; repo_heads := heads;
                     repo_remote_refs := repo_remote_refs r |}]> (repos w) |}.

(** Modelled from the spec: [git_checkout_branch] of payu.git_utils, which
    checks out the named branch of the repository at [control_path], or
    creates it from [start_point] (the checked-out commit when absent). *)
Definition checkout (control_path : Path) (branch_name : string)
    (is_new_branch : bool) (start_point : option string) (w : World)
    : Result unit * World :=
  match repos w !! control_path with
  | None => (Raise (CollaboratorError "not a git repository"), w)
  | Some r =>
      if is_new_branch then
        match find_head branch_name (repo_heads r) with
        | Some _ => (Raise (CollaboratorError "branch already exists"), w)
        | None =>
            let start :=
              match start_point with
              | Some sp => find_head sp (repo_heads r)
              | None => repo_active r
              end in
            match start with
            | None => (Raise (CollaboratorError "unknown start point"), w)
            | Some h0 =>
                let h := {| head_path := "refs/heads/" +:+ branch_name;
                            head_name := branch_name;
                            head_blobs := head_blobs h0 |} in
                (Ok tt, switch_to control_path r h (repo_heads r ++ [h]) w)
            end
        end
      else
        match find_head branch_name (repo_heads r) with
        | None => (Raise (CollaboratorError "unknown branch"), w)
        | Some h => (Ok tt, switch_to control_path r h (repo_heads r) w)
        end
  end.

(** Modelled from the spec: [get_git_branch], [get_git_repository],
    [local_branches_dict] and [remote_branches_dict] of payu.git_utils. *)
Definition current_branch (control_path : Path) (w : World) : Result string * World :=
  match active_branch_name w control_path with
  | Some b => (Ok b, w)
  | None => (Raise (CollaboratorError "no active branch"), w)
  end.

Definition repository (control_path : Path) (w : World) : Result Repo * World :=
  match repos w !! control_path with
  | Some r => (Ok r, w)
  | None => (Raise (CollaboratorError "not a git repository"), w)
  end.

Definition local_branches (r : Repo) (w : World)
    : Result (list (string * Head)) * World :=
  (Ok (map (fun h => (head_name h, h)) (repo_heads r)), w).

Definition remote_branches (r : Repo) (w : World)
    : Result (list (string * Head)) * World :=
  (Ok (repo_remote_refs r), w).

Definition config_blob : Blob :=
  {| blob_name := "config.yaml"; blob_data := "# model run
model: access-om2
" |}.

Definition main_head : Head :=
  {| head_path := "refs/heads/main"; head_name := "main";
     head_blobs := [config_blob] |}.

Definition expt1_head : Head :=
  {| head_path := "refs/heads/expt1"; head_name := "expt1";
     head_blobs :=
       [config_blob;
        {| blob_name := "metadata.yaml"; blob_data := "uuid: abc-123
" |}] |}.

(** A branch with no configuration file. *)
Definition control_head : Head :=
  {| head_path := "refs/heads/control"; head_name := "control";
     head_blobs := [{| blob_name := "README"; blob_data := "notes" |}] |}.

(** A branch whose metadata file has no UUID. *)
Definition draft_head : Head :=
  {| head_path := "refs/heads/draft"; head_name := "draft";
     head_blobs :=
       [config_blob;
        {| blob_name := "metadata.yaml"; blob_data := "name: draft
" |}] |}.

Definition origin_main : Head :=
  {| head_path := "refs/remotes/origin/main"; head_name := "origin/main";
     head_blobs := [config_blob] |}.

Definition upstream : Repo :=
  {| repo_active := Some main_head;
     repo_heads := [main_head; expt1_head; control_head; draft_head];
     repo_remote_refs := [("main", origin_main)] |}.

(** Modelled from the spec: [git_clone] of payu.git_utils, which clones
    the repository into [directory] and checks out [branch] when given. *)
Definition clone_repo (repository : string) (directory : Path)
    (branch : option string) (w : World) : Result unit * World :=
  if lexists (fs w) directory then
    (Raise (CollaboratorError "destination path already exists"), w)
  else
    let h :=
      match branch with
      | Some b => find_head b (repo_heads upstream)
      | None => repo_active upstream
      end in
    match h with
    | None => (Raise (CollaboratorError "remote branch not found"), w)
    | Some h =>
        (Ok tt,
         {| fs := write_tree directory (head_blobs h) (<[directory := Dir]> (fs w));
            cwd := cwd w;
            repos := <[directory :=
                         {| repo_active := Some h; repo_heads := [h];
                            repo_remote_refs := repo_remote_refs upstream |}]>
                       (repos w) |})
    end.

Definition env : Env :=
  {| DEFAULT_CONFIG_FNAME := config_fname;
     UUID_FIELD := uuid_field;
     read_config := control_of_config;
     Laboratory := laboratory;
     Metadata := metadata;
     Metadata_setup := metadata_setup;
     git_checkout_branch := checkout;
     git_clone := clone_repo;
     get_git_branch := current_branch;
     get_git_repository := repository;
     remote_branches_dict := remote_branches;
     local_branches_dict := local_branches;
     yaml_load := load;
     yaml_dump := dump |}.

(** A control directory [/home/ctrl] on branch [main], and a laboratory
    [/lab] that holds an archive for the experiment [ctrl-expt1]. *)
Definition ctrl : Path := ["home"; "ctrl"].

Definition files : FS :=
  list_to_map
    [(["home"], Dir);
     (ctrl, Dir);
     (joinpath ctrl "config.yaml", File (blob_data config_blob));
     (["lab"], Dir);
     (["lab"; "archive"], Dir);
     (["lab"; "work"], Dir);
     (["lab"; "archive"; "ctrl-expt1"], Dir);
     (["scratch"], Dir);
     (["scratch"; "restart"], Dir)].

Definition w0 : World :=
  {| fs := files; cwd := ctrl; repos := {[ ctrl := upstream ]} |}.

Definition s0 : State := {| world := w0; trace := [] |}.

End Demo.


(** ** Further notions for the statements *)

(** A run of [checkout_branch] has come through metadata setup: [cp],
    [cfg], [lab] and [m'] are the control path, the configuration path, the
    Laboratory and the Metadata it then holds, and [s5] the state it is
    in. *)
Definition after_metadata_setup (E : Env) (branch_name : string)
    (is_new_branch is_new_experiment keep_uuid : bool) (start_point : option string)
    (config_path control_path : option Path) (model_type : option string)
    (lab_path : option Path) (s : State)
    (cp cfg : Path) (lab : Lab) (m' : Meta) (s5 : State) : Prop :=
  ∃ s1 w2 w3 m w4 w5,
    control_path_step E config_path control_path s = (Ok cp, s1)
    ∧ git_checkout_branch E cp branch_name is_new_branch start_point (world s1)
      = (Ok tt, w2)
    ∧ path_exists (fs w2) (resolved_config_path E config_path w2) = true
    ∧ cfg = resolved_config_path E config_path w2
    ∧ Laboratory E model_type cfg lab_path w2 = (Ok lab, w3)
    ∧ Metadata E (archive_path lab) branch_name cfg w3 = (Ok m, w4)
    ∧ Metadata_setup E m keep_uuid (is_new_experiment || is_new_branch) w4
      = (Ok m', w5)
    ∧ s5 = {| world := w5;
              trace :=
                trace s1
                ++ [Called (CGitCheckoutBranch cp branch_name is_new_branch
                              start_point);
                    Called (CLaboratory model_type cfg lab_path);
                    Called (CMetadata (archive_path lab) branch_name cfg);
                    Called (CMetadataSetup keep_uuid
                              (is_new_experiment || is_new_branch))] |}.

(** The calls to collaborators in a trace, in order. *)
Definition calls_of (tr : list Event) : list Call :=
  omap (fun ev => match ev with Called c => Some c | _ => None end) tr.

(** The name [p] is free, or holds a regular file, or a link straight to a
    file or a directory. *)
Definition replaceable (f : FS) (p : Path) : Prop :=
  f !! p = None
  ∨ (∃ c, f !! p = Some (File c))
  ∨ (∃ t, f !! p = Some (Link t)
          ∧ (f !! t = Some Dir ∨ ∃ c, f !! t = Some (File c))).

(** The warning of [add_restart_to_config]. *)
Definition restart_warning (restart_path : Path) : string :=
  "Given restart directory " +:+ str_path restart_path +:+ " does not "
  +:+ "exist. Skipping adding 'restart: " +:+ str_path restart_path
  +:+ "' " +:+ "to config file".

(** A computation that leaves the working directory as it is. *)
Definition keeps_cwd {A : Type} (m : M A) : Prop :=
  ∀ s, cwd (world (snd (m s))) = cwd (world s).

(** The same of a collaborator, whatever the world it is called in. *)
Definition leaves_cwd {A : Type} (f : World → Result A * World) : Prop :=
  ∀ w, cwd (snd (f w)) = cwd w.

(** None of the collaborators of [checkout_branch] changes directory. *)
Definition collaborators_leave_cwd (E : Env) : Prop :=
  (∀ cfg, leaves_cwd (read_config E cfg))
  ∧ (∀ cp b nb sp, leaves_cwd (git_checkout_branch E cp b nb sp))
  ∧ (∀ mt cfg lab, leaves_cwd (Laboratory E mt cfg lab))
  ∧ (∀ archive b cfg, leaves_cwd (Metadata E archive b cfg))
  ∧ (∀ m k n, leaves_cwd (Metadata_setup E m k n)).
(** * Properties *)

(** ** File-system look-ups *)

Lemma resolve_not_link (f : FS) (p : Path) :
  (∀ t, f !! p ≠ Some (Link t)) → resolve f p = p.
Proof.
  intros H. unfold resolve, MAXSYMLINKS. simpl.
  destruct (f !! p) as [[| |t]|] eqn:Hp; try reflexivity.
  exfalso. by apply (H t).
Qed.

Lemma stat_not_link (f : FS) (p : Path) :
  (∀ t, f !! p ≠ Some (Link t)) → stat f p = f !! p.
Proof.
  intros H. unfold stat. rewrite resolve_not_link by assumption.
  destruct (f !! p) as [[| |t]|] eqn:Hp; try reflexivity.
  exfalso. by apply (H t).
Qed.

Lemma path_exists_absent (f : FS) (p : Path) :
  f !! p = None → path_exists f p = false.
Proof.
  intros H. unfold path_exists. rewrite stat_not_link; [by rewrite H|].
  intros t. by rewrite H.
Qed.

Lemma path_exists_file (f : FS) (p : Path) (c : string) :
  f !! p = Some (File c) → path_exists f p = true.
Proof.
  intros H. unfold path_exists. rewrite stat_not_link; [by rewrite H|].
  intros t. by rewrite H.
Qed.

Lemma is_dir_real (f : FS) (p : Path) : f !! p = Some Dir → is_dir f p = true.
Proof.
  intros H. unfold is_dir. rewrite stat_not_link; [by rewrite H|].
  intros t. by rewrite H.
Qed.

Lemma joinpath_ne (p : Path) (name : string) : joinpath p name ≠ p.
Proof.
  unfold joinpath. intros H. apply (f_equal length) in H.
  rewrite length_app in H. simpl in H. lia.
Qed.

Lemma parent_joinpath (p : Path) (name : string) : parent (joinpath p name) = p.
Proof. unfold parent, joinpath. apply removelast_last. Qed.

(** ** [switch_symlink] *)

(** The run of [switch_symlink] changes the file system as [switch_fs]
    says, and nothing else of the world. *)
Lemma switch_symlink_world (L C : Path) (E k : string) (s : State) :
  world (snd (switch_symlink L C E k s))
  = set_fs (switch_fs (fs (world s)) (joinpath C k) (joinpath L E)) (world s).
Proof.
  destruct s as [[f d r] tr].
  unfold switch_symlink, switch_fs, removal_phase, creation_phase.
  unfold mbind, M_bind, mret, M_ret, get_fs, fs_op, print, emit, set_fs. simpl.
  destruct (path_exists f (joinpath C k)) eqn:Hex; simpl.
  - destruct (unlink f (joinpath C k)) as [f1|e] eqn:Hun; simpl; [|reflexivity].
    destruct (path_exists f1 (joinpath L E)) eqn:HD; simpl; [|reflexivity].
    destruct (symlink_to f1 (joinpath C k) (joinpath L E)) eqn:Hsl; reflexivity.
  - destruct (path_exists f (joinpath L E)) eqn:HD; simpl; [|reflexivity].
    destruct (symlink_to f (joinpath C k) (joinpath L E)) eqn:Hsl; reflexivity.
Qed.

Lemma removal_phase_absent (f : FS) (sp : Path) :
  f !! sp = None → removal_phase f sp = Ok f.
Proof.
  intros H. unfold removal_phase. by rewrite path_exists_absent.
Qed.

Lemma removal_phase_inv (f f1 : FS) (sp : Path) :
  removal_phase f sp = Ok f1 →
  (f1 = f ∧ path_exists f sp = false) ∨ (f1 = delete sp f ∧ path_exists f sp = true).
Proof.
  unfold removal_phase, unlink, bound_method.
  destruct (path_exists f sp); simpl.
  - destruct (f !! sp) as [[| |]|]; intros H; inversion H; by right.
  - intros H; inversion H; by left.
Qed.

Lemma creation_phase_inv (f f2 : FS) (sp dp : Path) :
  creation_phase f sp dp = Ok f2 →
  f2 = f ∨ (f2 = <[sp := Link dp]> f ∧ f !! sp = None).
Proof.
  unfold creation_phase, symlink_to, lexists.
  destruct (path_exists f dp); [|intros H; inversion H; by left].
  destruct (f !! sp) eqn:HS; [discriminate|].
  destruct (is_dir f (parent sp)); [|discriminate].
  intros H; inversion H; by right.
Qed.

(** A second run finds nothing left to do. *)
Lemma switch_fs_idempotent (f : FS) (sp dp : Path) :
  switch_fs (switch_fs f sp dp) sp dp = switch_fs f sp dp.
Proof.
  unfold switch_fs at 2 3.
  destruct (removal_phase f sp) as [f1|e] eqn:HA.
  2:{ unfold switch_fs. by rewrite HA. }
  assert (Hsw : switch_fs f1 sp dp = switch_fs f sp dp).
  { unfold switch_fs at 2. rewrite HA.
    apply removal_phase_inv in HA as [[-> Hex]|[-> Hex]].
    - unfold switch_fs. unfold removal_phase at 1. by rewrite Hex.
    - unfold switch_fs.
      rewrite removal_phase_absent; [done|apply lookup_delete_eq]. }
  destruct (creation_phase f1 sp dp) as [f2|e] eqn:HB.
  2:{ rewrite Hsw. unfold switch_fs. rewrite HA, HB. done. }
  pose proof HB as HB'.
  apply creation_phase_inv in HB' as [->|[-> HS]].
  { rewrite Hsw. unfold switch_fs. rewrite HA, HB. done. }
  (* the link was created: the second run removes and recreates it, or
     cannot see it and leaves it *)
  unfold switch_fs.
  destruct (removal_phase (<[sp:=Link dp]> f1) sp) as [g|e] eqn:HA2; [|done].
  apply removal_phase_inv in HA2 as [[-> Hex]|[-> Hex]].
  - unfold creation_phase, symlink_to, lexists. rewrite lookup_insert_eq.
    by destruct (path_exists _ dp).
  - rewrite delete_insert_id by assumption. by rewrite HB.
Qed.

(** Where the name is free, or holds a file or a link whose target exists,
    and the control directory is there, [switch_symlink] returns and leaves
    the link to the experiment directory exactly when that directory exists
    once the old entry is gone. *)
Lemma switch_symlink_sync (L C : Path) (E k : string) (s : State) :
  fs (world s) !! C = Some Dir →
  fs (world s) !! joinpath C k = None
  ∨ (path_exists (fs (world s)) (joinpath C k) = true
     ∧ fs (world s) !! joinpath C k ≠ Some Dir) →
  let removed := delete (joinpath C k) (fs (world s)) in
  fst (switch_symlink L C E k s) = Ok tt
  ∧ fs (world (snd (switch_symlink L C E k s))) !! joinpath C k
    = (if path_exists removed (joinpath L E) then Some (Link (joinpath L E))
       else None).
Proof.
  intros Hdir Hsym removed.
  assert (Hrem : removal_phase (fs (world s)) (joinpath C k) = Ok removed).
  { unfold removal_phase, bound_method. destruct Hsym as [Habs|[Hex Hnd]].
    - rewrite (path_exists_absent _ _ Habs). simpl. subst removed.
      by rewrite delete_id.
    - rewrite Hex. simpl. unfold unlink.
      destruct (fs (world s) !! joinpath C k) as [[c| |t]|] eqn:Hp; try done.
      by rewrite path_exists_absent in Hex. }
  assert (Hcre : creation_phase removed (joinpath C k) (joinpath L E)
                 = Ok (if path_exists removed (joinpath L E)
                       then <[joinpath C k := Link (joinpath L E)]> removed
                       else removed)).
  { unfold creation_phase, symlink_to, lexists.
    destruct (path_exists removed (joinpath L E)); [|done].
    subst removed. rewrite lookup_delete_eq, parent_joinpath.
    rewrite is_dir_real; [done|].
    rewrite lookup_delete_ne; [done | apply joinpath_ne]. }
  split.
  - destruct s as [[f d r] tr]. simpl in *.
    unfold removal_phase in Hrem. unfold creation_phase in Hcre.
    unfold switch_symlink.
    unfold mbind, M_bind, mret, M_ret, get_fs, fs_op, print, emit, set_fs. simpl.
    destruct (path_exists f (joinpath C k) && bound_method is_symlink (joinpath C k));
      simpl.
    + rewrite Hrem. simpl.
      destruct (path_exists removed (joinpath L E)); simpl; [|done].
      by rewrite Hcre.
    + injection Hrem as Hrem. rewrite Hrem.
      destruct (path_exists removed (joinpath L E)); simpl; [|done].
      by rewrite Hcre.
  - rewrite switch_symlink_world. unfold switch_fs. rewrite Hrem, Hcre. simpl.
    destruct (path_exists removed (joinpath L E)).
    + apply lookup_insert_eq.
    + subst removed. apply lookup_delete_eq.
Qed.

(** C6. Calling [switch_symlink] a second time with the same arguments, on
    the state the first call left (whether it returned or raised), changes
    nothing: the world after two calls is the world after one, and so is
    the entry at [control_path / sym_dir]. *)
Theorem switch_symlink_idempotent (L C : Path) (E k : string) (s : State) :
  let once := snd (switch_symlink L C E k s) in
  let twice := snd (switch_symlink L C E k once) in
  world twice = world once
  ∧ fs (world twice) !! joinpath C k = fs (world once) !! joinpath C k.
Proof.
  intros once twice.
  assert (H : world twice = world once).
  { unfold twice, once. rewrite !switch_symlink_world.
    destruct s as [[f d r] tr]. unfold set_fs; simpl.
    by rewrite switch_fs_idempotent. }
  split; [exact H | by rewrite H].
Qed.

(** C10. When the entry at [control_path / sym_dir] is a regular file, the
    removal phase unlinks it all the same: the call does not raise, it
    reports the removal of a symlink, the file is gone, and the name then
    holds the new link when the experiment directory exists and nothing
    otherwise. *)
Theorem switch_symlink_unlinks_regular_file
    (L C : Path) (E k content : string) (s : State) :
  fs (world s) !! joinpath C k = Some (File content) →
  fs (world s) !! C = Some Dir →
  let sym_path := joinpath C k in
  let dir_path := joinpath L E in
  let removed := delete sym_path (fs (world s)) in
  let linked := path_exists removed dir_path in
  switch_symlink L C E k s
  = (Ok tt,
     {| world :=
          set_fs (if linked then <[sym_path := Link dir_path]> removed else removed)
                 (world s);
        trace :=
          trace s
          ++ Printed ("Removed " +:+ k +:+ " symlink to " +:+ str_path sym_path)
             :: (if linked
                 then [Printed ("Added " +:+ k +:+ " symlink to " +:+ str_path dir_path)]
                 else []) |})
  ∧ fs (world (snd (switch_symlink L C E k s))) !! sym_path
    = (if linked then Some (Link dir_path) else None).
Proof.
  intros Hfile Hdir sym_path dir_path removed linked.
  assert (Hrun : switch_symlink L C E k s
    = (Ok tt,
       {| world :=
            set_fs (if linked then <[sym_path := Link dir_path]> removed else removed)
                   (world s);
          trace :=
            trace s
            ++ Printed ("Removed " +:+ k +:+ " symlink to " +:+ str_path sym_path)
               :: (if linked
                   then [Printed ("Added " +:+ k +:+ " symlink to " +:+ str_path dir_path)]
                   else []) |})).
  { subst sym_path dir_path removed linked.
    destruct s as [[f d r] tr]. simpl in *.
    unfold switch_symlink.
    unfold mbind, M_bind, mret, M_ret, get_fs, fs_op, print, emit, set_fs,
      bound_method. simpl.
    rewrite (path_exists_file _ _ _ Hfile). simpl.
    unfold unlink. rewrite Hfile. simpl.
    rewrite resolve_not_link by (intros t; rewrite Hfile; discriminate).
    destruct (path_exists (delete (joinpath C k) f) (joinpath L E)) eqn:Hl;
      simpl; [|reflexivity].
    unfold symlink_to, lexists.
    rewrite lookup_delete_eq, parent_joinpath.
    rewrite is_dir_real.
    2:{ rewrite lookup_delete_ne; [exact Hdir|]. apply joinpath_ne. }
    simpl. rewrite <- app_assoc. reflexivity. }
  split; [exact Hrun|].
  rewrite Hrun. simpl. destruct linked.
  - apply lookup_insert_eq.
  - apply lookup_delete_eq.
Qed.

(** The same on an example: a regular file [work] in the control directory
    is deleted, and replaced by the link when the target is there. *)
Lemma switch_symlink_unlinks_regular_file_witness :
  let f : FS :=
    {[ ["ctrl"] := Dir; ["ctrl"; "work"] := File "notes";
       ["lab"] := Dir; ["lab"; "run1"] := Dir ]} in
  let s := {| world := {| fs := f; cwd := ["ctrl"]; repos := ∅ |}; trace := [] |} in
  fs (world (snd (switch_symlink ["lab"] ["ctrl"] "run1" "work" s))) !! ["ctrl"; "work"]
  = Some (Link ["lab"; "run1"])
  ∧ fs (world (snd (switch_symlink ["lab"] ["ctrl"] "gone" "work" s))) !! ["ctrl"; "work"]
    = None.
Proof.
  intros f s. split.
  - refine (eq_trans
              (proj2 (switch_symlink_unlinks_regular_file
                        ["lab"] ["ctrl"] "run1" "work" "notes" s _ _)) _);
      vm_compute; reflexivity.
  - refine (eq_trans
              (proj2 (switch_symlink_unlinks_regular_file
                        ["lab"] ["ctrl"] "gone" "work" "notes" s _ _)) _);
      vm_compute; reflexivity.
Defined.

(** C1, on the code.  A dangling symlink at [control_path / sym_dir] is not
    seen by [Path.exists()], so the removal phase skips it: with no new
    target the call returns and the stale link is still there; with a new
    target the creation finds the name taken and raises, the link still
    pointing at the old experiment. *)
Theorem switch_symlink_keeps_dangling_link :
  let stale := Link ["lab"; "old"] in
  let f : FS := {[ ["ctrl"] := Dir; ["ctrl"; "work"] := stale; ["lab"] := Dir ]} in
  let g : FS := <[ ["lab"; "new"] := Dir ]> f in
  let st (x : FS) := {| world := {| fs := x; cwd := ["ctrl"]; repos := ∅ |}; trace := [] |} in
  path_exists f ["lab"; "new"] = false
  ∧ switch_symlink ["lab"] ["ctrl"] "new" "work" (st f) = (Ok tt, st f)
  ∧ fs (world (snd (switch_symlink ["lab"] ["ctrl"] "new" "work" (st f)))) !! ["ctrl"; "work"]
    = Some stale
  ∧ path_exists g ["lab"; "new"] = true
  ∧ switch_symlink ["lab"] ["ctrl"] "new" "work" (st g)
    = (Raise (FileExistsError ["ctrl"; "work"]), st g).
Proof.
  vm_compute. repeat split; reflexivity.
Qed.

(** ** [check_config_path] *)

(** What the code does: it raises exactly when [Path.exists()] is false;
    the kind of the entry plays no part. *)
Lemma check_config_path_run (E : Env) (config_path : option Path) (s : State) :
  let p := resolved_config_path E config_path (world s) in
  check_config_path E config_path s
  = if path_exists (fs (world s)) p then (Ok p, s)
    else (Raise (FileNotFoundError
                   ("Configuration file " +:+ shown_config_path E config_path
                    +:+ " not found")),
          {| world := world s; trace := trace s ++ [Printed NO_CONFIG_FOUND_MESSAGE] |}).
Proof.
  intros p. subst p.
  unfold check_config_path, resolved_config_path, shown_config_path.
  unfold mbind, M_bind, mret, M_ret, print, emit, raise, bound_method. simpl.
  destruct config_path as [q|]; simpl;
    destruct (path_exists _ _); reflexivity.
Qed.

(** C7, on the code.  Given a path that exists and is a directory, not a
    regular file, [check_config_path] prints nothing, raises nothing and
    returns the path: [config_path.is_file] is never called. *)
Theorem check_config_path_accepts_directory :
  path_exists (fs Demo.w0) Demo.ctrl = true
  ∧ is_file (fs Demo.w0) Demo.ctrl = false
  ∧ check_config_path Demo.env (Some Demo.ctrl) Demo.s0 = (Ok Demo.ctrl, Demo.s0).
Proof. vm_compute. repeat split; reflexivity. Qed.

(** ** [add_restart_to_config] *)

Lemma items_set_get (items : list Item) (k v : string) :
  items_get (items_set items k v) k = Some v.
Proof.
  induction items as [|[c|k' v'] rest IH]; simpl.
  - by rewrite bool_decide_eq_true_2.
  - exact IH.
  - destruct (bool_decide (k' = k)) eqn:Hk; simpl; rewrite Hk; [done | exact IH].
Qed.

Lemma items_set_get_ne (items : list Item) (k v k2 : string) :
  k2 ≠ k → items_get (items_set items k v) k2 = items_get items k2.
Proof.
  intros Hne. induction items as [|[c|k' v'] rest IH]; simpl.
  - by rewrite bool_decide_eq_false_2.
  - exact IH.
  - destruct (bool_decide (k' = k)) eqn:Hk; simpl.
    + apply bool_decide_eq_true_1 in Hk. subst k'.
      by rewrite bool_decide_eq_false_2 by done.
    + destruct (bool_decide (k' = k2)); [done | exact IH].
Qed.

(** Comment lines and the other entries keep their text and their order. *)
Lemma items_set_restart_keeps_rest (items : list Item) (v : string) :
  List.filter (fun i => negb (is_restart_entry i)) (items_set items "restart" v)
  = List.filter (fun i => negb (is_restart_entry i)) items.
Proof.
  induction items as [|[c|k' v'] rest IH]; simpl.
  - reflexivity.
  - by rewrite IH.
  - destruct (bool_decide (k' = "restart")) eqn:Hk; simpl; rewrite Hk; simpl.
    + reflexivity.
    + by rewrite IH.
Qed.

Lemma is_dir_path_exists (f : FS) (p : Path) :
  is_dir f p = true → path_exists f p = true.
Proof. unfold is_dir, path_exists. by destruct (stat f p) as [[| |]|]. Qed.

(** C5. When the restart path is missing or not a directory, the call
    returns, the world (so the configuration file) is as it was, and one
    warning is all that was emitted.  When it is an existing directory and
    the configuration file loads as a mapping, the file behind
    [config_path] is rewritten with the dump of that mapping where
    [restart] is the path string, every comment line and other entry kept
    in place, and the change is reported. *)
Theorem add_restart_to_config_spec (E : Env) (restart_path config_path : Path)
    (s : State) :
  let f := fs (world s) in
  let value := str_path restart_path in
  (path_exists f restart_path = false ∨ is_dir f restart_path = false →
   add_restart_to_config E restart_path config_path s
   = (Ok tt,
      {| world := world s;
         trace :=
           trace s
           ++ [Warned ("Given restart directory " +:+ value +:+ " does not "
                       +:+ "exist. Skipping adding 'restart: " +:+ value
                       +:+ "' " +:+ "to config file")] |}))
  ∧ (is_dir f restart_path = true →
     ∀ text items,
       read_file f config_path = Ok text →
       yaml_load E text = Ok (YMap items) →
       let items' := items_set items "restart" value in
       add_restart_to_config E restart_path config_path s
       = (Ok tt,
          {| world :=
               set_fs (<[resolve f config_path := File (yaml_dump E (YMap items'))]> f)
                      (world s);
             trace :=
               trace s
               ++ [Printed ("Added 'restart: " +:+ value
                            +:+ "' to configuration file: "
                            +:+ path_name config_path)] |})
       ∧ items_get items' "restart" = Some value
       ∧ List.filter (fun i => negb (is_restart_entry i)) items'
         = List.filter (fun i => negb (is_restart_entry i)) items).
Proof.
  intros f value. subst f value. destruct s as [[f d r] tr]. simpl. split.
  - intros Hbad.
    assert (Hcond : negb (path_exists f restart_path) || negb (is_dir f restart_path)
                    = true).
    { destruct Hbad as [H|H]; rewrite H; simpl; [done|apply orb_true_r]. }
    unfold add_restart_to_config.
    unfold mbind, M_bind, mret, M_ret, get_fs, warn, emit. simpl.
    rewrite Hcond. reflexivity.
  - intros Hdir text items Hread Hload. repeat split.
    + unfold add_restart_to_config, yaml_load_path, yaml_dump_path.
      unfold mbind, M_bind, mret, M_ret, get_fs, fs_op, lift, print, emit. simpl.
      rewrite Hdir, (is_dir_path_exists _ _ Hdir). simpl.
      rewrite Hread, Hload. simpl.
      unfold write_file.
      unfold read_file, stat in Hread.
      destruct (f !! resolve f config_path) as [[c| |t]|] eqn:Hq; try discriminate.
      reflexivity.
    + apply items_set_get.
    + apply items_set_restart_keeps_rest.
Qed.

(** Both cases on the example installation: a missing restart directory
    leaves [config.yaml] as it was; an existing one adds the key after the
    comment and the model entry. *)
Lemma add_restart_to_config_spec_witness :
  let cfg := joinpath Demo.ctrl "config.yaml" in
  (fs (world (snd (add_restart_to_config Demo.env ["scratch"; "none"] cfg Demo.s0)))
   = fs Demo.w0)
  ∧ fs (world (snd (add_restart_to_config Demo.env ["scratch"; "restart"] cfg Demo.s0)))
    !! cfg
    = Some (File "# model run
model: access-om2
restart: /scratch/restart
").
Proof.
  intros cfg. split.
  - refine (eq_trans
              (f_equal (fun r => fs (world (snd r)))
                 (proj1 (add_restart_to_config_spec Demo.env ["scratch"; "none"] cfg
                           Demo.s0) _)) _).
    + left. vm_compute. reflexivity.
    + reflexivity.
  - refine (eq_trans
              (f_equal (fun r => fs (world (snd r)) !! cfg)
                 (proj1 (proj2 (add_restart_to_config_spec Demo.env
                                  ["scratch"; "restart"] cfg Demo.s0) _
                           (blob_data Demo.config_blob)
                           [Comment "# model run"; Entry "model" "access-om2"] _ _)))
              _).
    + vm_compute. reflexivity.
    + vm_compute. reflexivity.
    + vm_compute. reflexivity.
    + vm_compute. reflexivity.
Defined.

(** ** Computations that call no collaborator *)

Lemma quiet_ret {A : Type} (a : A) : quiet (mret a : M A).
Proof. intros s. exists []. split; [by rewrite app_nil_r | constructor]. Qed.

Lemma quiet_raise {A : Type} (e : Exn) : quiet (raise e : M A).
Proof. intros s. exists []. split; [by rewrite app_nil_r | constructor]. Qed.

Lemma quiet_lift {A : Type} (r : Result A) : quiet (lift r).
Proof. intros s. exists []. split; [by rewrite app_nil_r | constructor]. Qed.

Lemma quiet_get_fs : quiet get_fs.
Proof. intros s. exists []. split; [by rewrite app_nil_r | constructor]. Qed.

Lemma quiet_fs_op (op : FS → Result FS) : quiet (fs_op op).
Proof.
  intros s. exists []. split; [|constructor].
  unfold fs_op. destruct (op _); by rewrite app_nil_r.
Qed.

Lemma quiet_print (text : string) : quiet (print text).
Proof. intros s. exists [Printed text]. split; [done | by repeat constructor]. Qed.

Lemma quiet_warn (text : string) : quiet (warn text).
Proof. intros s. exists [Warned text]. split; [done | by repeat constructor]. Qed.

Lemma quiet_bind {A B : Type} (m : M A) (k : A → M B) :
  quiet m → (∀ a, quiet (k a)) → quiet (m ≫= k).
Proof.
  intros Hm Hk s. unfold mbind, M_bind.
  destruct (Hm s) as (out1 & H1 & F1).
  destruct (m s) as [[a|e] s1] eqn:Hms; simpl in *.
  - destruct (Hk a s1) as (out2 & H2 & F2).
    exists (out1 ++ out2). split.
    + by rewrite H2, H1, app_assoc.
    + by apply Forall_app.
  - by exists out1.
Qed.

Create HintDb quiet.

#[local] Hint Resolve quiet_ret quiet_raise quiet_lift quiet_get_fs quiet_fs_op
  quiet_print quiet_warn : quiet.

Ltac quiet_steps :=
  repeat first
    [ apply quiet_bind; [|intros ?]
    | progress eauto with quiet
    | match goal with |- quiet (if ?b then _ else _) => destruct b end
    | match goal with |- quiet (match ?x with _ => _ end) => destruct x end ].

Lemma quiet_switch_symlink (L C : Path) (E k : string) :
  quiet (switch_symlink L C E k).
Proof. unfold switch_symlink. quiet_steps. Qed.

Lemma quiet_add_restart_to_config (E : Env) (restart_path config_path : Path) :
  quiet (add_restart_to_config E restart_path config_path).
Proof. unfold add_restart_to_config, yaml_load_path, yaml_dump_path. quiet_steps. Qed.

Lemma setup_calls_app (a b : list Event) :
  setup_calls (a ++ b) = setup_calls a ++ setup_calls b.
Proof. unfold setup_calls. apply omap_app. Qed.

Lemma setup_calls_output (out : list Event) :
  Forall is_output out → setup_calls out = [].
Proof.
  induction 1 as [|ev out Hev _ IH]; [reflexivity|].
  destruct ev as [t|t|c]; simpl in *; try exact IH. contradiction.
Qed.

Lemma git_checkout_calls_app (a b : list Event) :
  git_checkout_calls (a ++ b) = git_checkout_calls a ++ git_checkout_calls b.
Proof. unfold git_checkout_calls. apply omap_app. Qed.

Lemma git_checkout_calls_output (out : list Event) :
  Forall is_output out → git_checkout_calls out = [].
Proof.
  induction 1 as [|ev out Hev _ IH]; [reflexivity|].
  destruct ev as [t|t|c]; simpl in *; try exact IH. contradiction.
Qed.

(** ** [checkout_branch] *)

Lemma call_run {A : Type} (c : Call) (f : World → Result A * World) (s : State) :
  call c f s
  = (fst (f (world s)),
     {| world := snd (f (world s)); trace := trace s ++ [Called c] |}).
Proof. unfold call. by destruct (f (world s)). Qed.

(** The first step: the control path is the argument, or is read from the
    configuration. *)
Lemma control_path_step_trace (E : Env) (config_path control_path : option Path)
    (s : State) :
  let step := control_path_step E config_path control_path in
  ∃ pre, trace (snd (step s)) = trace s ++ pre
         ∧ setup_calls pre = [] ∧ git_checkout_calls pre = []
         ∧ (∀ cp, control_path = Some cp → step s = (Ok cp, s) ∧ pre = []).
Proof.
  unfold control_path_step. destruct control_path as [p|]; simpl.
  - exists []. rewrite app_nil_r. repeat split; try done.
    all: by simplify_eq.
  - exists [Called (CReadConfig config_path)].
    unfold get_control_path, mbind, M_bind. rewrite call_run.
    destruct (read_config E config_path (world s)) as [[[cp0|]|e] w]; simpl;
      repeat split; done.
Qed.

(** The steps after metadata setup call no collaborator. *)
Lemma quiet_after_setup (E : Env) (restart_path : option Path)
    (config_path control_path : Path) (lab : Lab) (experiment : string) :
  quiet (match restart_path with
         | Some restart_path => add_restart_to_config E restart_path config_path
         | None => mret tt
         end;;
         switch_symlink (archive_path lab) control_path experiment "archive";;
         switch_symlink (work_path lab) control_path experiment "work").
Proof.
  apply quiet_bind; [|intros _; apply quiet_bind; [|intros _]].
  - destruct restart_path; [apply quiet_add_restart_to_config | apply quiet_ret].
  - apply quiet_switch_symlink.
  - apply quiet_switch_symlink.
Qed.

(** The collaborator calls of a run of [checkout_branch]: metadata setup
    is called at most once, with [keep_uuid] as given and with
    [is_new_experiment || is_new_branch], and once when the run returns;
    with a control path given, git checkout is called once, with the
    arguments given. *)
Lemma checkout_branch_calls (E : Env) (branch_name : string)
    (is_new_branch is_new_experiment keep_uuid : bool)
    (start_point : option string) (restart_path config_path control_path : option Path)
    (model_type : option string) (lab_path : option Path) (s : State)
    (r : Result unit) (s' : State) :
  checkout_branch E branch_name is_new_branch is_new_experiment keep_uuid
    start_point restart_path config_path control_path model_type lab_path s
  = (r, s') →
  let flags := (keep_uuid, is_new_experiment || is_new_branch) in
  ∃ added,
    trace s' = trace s ++ added
    ∧ (setup_calls added = [] ∨ setup_calls added = [flags])
    ∧ (r = Ok tt → setup_calls added = [flags])
    ∧ (∀ cp, control_path = Some cp →
         git_checkout_calls added = [(cp, branch_name, is_new_branch, start_point)]).
Proof.
  intros Hrun flags. subst flags. unfold checkout_branch in Hrun.
  destruct (control_path_step_trace E config_path control_path s)
    as (pre & Hpre & Hpre_s & Hpre_g & Hpre_cp).
  fold (control_path_step E config_path control_path) in Hrun.
  unfold mbind at 1, M_bind at 1 in Hrun.
  destruct (control_path_step E config_path control_path s)
    as [[cp|e] s1] eqn:Hstep; simpl in Hpre.
  2:{ injection Hrun as <- <-. exists pre. repeat split; auto; try discriminate.
      intros cp' Hcp. destruct (Hpre_cp cp' Hcp) as [Heq _]. discriminate. }
  assert (Hgc : ∀ cp', control_path = Some cp' → cp' = cp ∧ pre = []).
  { intros cp' Hcp. destruct (Hpre_cp cp' Hcp) as [Heq ->].
    split; [congruence | done]. }
  unfold mbind at 1, M_bind at 1 in Hrun. rewrite call_run in Hrun.
  set (gc := Called (CGitCheckoutBranch cp branch_name is_new_branch start_point))
    in Hrun.
  destruct (git_checkout_branch E cp branch_name is_new_branch start_point (world s1))
    as [[[]|e] w2]; simpl in Hrun.
  2:{ injection Hrun as <- <-. exists (pre ++ [gc]). simpl.
      rewrite Hpre, app_assoc, setup_calls_app, Hpre_s.
      repeat split; auto; try discriminate.
      intros cp' Hcp. destruct (Hgc cp' Hcp) as [-> ->]. reflexivity. }
  unfold mbind at 1, M_bind at 1 in Hrun.
  rewrite check_config_path_run in Hrun. simpl in Hrun.
  destruct (path_exists (fs w2) _); simpl in Hrun.
  2:{ injection Hrun as <- <-. exists (pre ++ [gc; Printed NO_CONFIG_FOUND_MESSAGE]).
      simpl. rewrite Hpre, <- !app_assoc, !setup_calls_app, Hpre_s. simpl.
      repeat split; auto; try discriminate.
      intros cp' Hcp. destruct (Hgc cp' Hcp) as [-> ->]. reflexivity. }
  set (cfg := resolved_config_path E config_path w2) in Hrun.
  unfold mbind at 1, M_bind at 1 in Hrun. rewrite call_run in Hrun. simpl in Hrun.
  destruct (Laboratory E model_type cfg lab_path w2) as [[lab|e] w3]; simpl in Hrun.
  2:{ injection Hrun as <- <-.
      exists (pre ++ [gc; Called (CLaboratory model_type cfg lab_path)]).
      simpl. rewrite Hpre, <- !app_assoc, !setup_calls_app, Hpre_s. simpl.
      repeat split; auto; try discriminate.
      intros cp' Hcp. destruct (Hgc cp' Hcp) as [-> ->]. reflexivity. }
  unfold mbind at 1, M_bind at 1 in Hrun. rewrite call_run in Hrun. simpl in Hrun.
  destruct (Metadata E (archive_path lab) branch_name cfg w3) as [[m|e] w4];
    simpl in Hrun.
  2:{ injection Hrun as <- <-.
      exists (pre ++ [gc; Called (CLaboratory model_type cfg lab_path);
                      Called (CMetadata (archive_path lab) branch_name cfg)]).
      simpl. rewrite Hpre, <- !app_assoc, !setup_calls_app, Hpre_s. simpl.
      repeat split; auto; try discriminate.
      intros cp' Hcp. destruct (Hgc cp' Hcp) as [-> ->]. reflexivity. }
  unfold mbind at 1, M_bind at 1 in Hrun. rewrite call_run in Hrun. simpl in Hrun.
  set (su := Called (CMetadataSetup keep_uuid (is_new_experiment || is_new_branch)))
    in Hrun.
  set (calls := [gc; Called (CLaboratory model_type cfg lab_path);
                 Called (CMetadata (archive_path lab) branch_name cfg); su]).
  destruct (Metadata_setup E m keep_uuid (is_new_experiment || is_new_branch) w4)
    as [[m'|e] w5]; simpl in Hrun.
  2:{ injection Hrun as <- <-. exists (pre ++ calls).
      simpl. rewrite Hpre, <- !app_assoc, !setup_calls_app, Hpre_s. simpl.
      repeat split; auto; try discriminate.
      intros cp' Hcp. destruct (Hgc cp' Hcp) as [-> ->]. reflexivity. }
  match type of Hrun with
  | _ {| world := w5; trace := ?tr |} = _ =>
      destruct (quiet_after_setup E restart_path cfg cp lab (experiment_name m')
                  {| world := w5; trace := tr |}) as (out & Hout & Fout)
  end.
  rewrite Hrun in Hout. simpl in Hout.
  exists (pre ++ calls ++ out).
  rewrite Hout, Hpre, <- !app_assoc.
  rewrite !setup_calls_app, !git_checkout_calls_app, Hpre_s, Hpre_g.
  rewrite (setup_calls_output _ Fout), (git_checkout_calls_output _ Fout).
  simpl. repeat split; auto.
  intros cp' Hcp. destruct (Hgc cp' Hcp) as [-> ->]. reflexivity.
Qed.

(** A run that reaches metadata setup calls it, whatever happens after. *)
Lemma checkout_branch_reaches_setup (E : Env) (branch_name : string)
    (is_new_branch is_new_experiment keep_uuid : bool)
    (start_point : option string) (restart_path config_path control_path : option Path)
    (model_type : option string) (lab_path : option Path) (s : State) :
  reaches_metadata_setup E branch_name is_new_branch start_point config_path
    control_path model_type lab_path s →
  setup_calls
    (trace (snd (checkout_branch E branch_name is_new_branch is_new_experiment
                   keep_uuid start_point restart_path config_path control_path
                   model_type lab_path s)))
  = setup_calls (trace s) ++ [(keep_uuid, is_new_experiment || is_new_branch)].
Proof.
  intros (cp & s1 & w2 & lab & w3 & m & w4 & Hstep & Hgit & Hcfg & Hlab & Hmeta).
  destruct (control_path_step_trace E config_path control_path s)
    as (pre & Hpre & Hpre_s & _ & _).
  simpl in Hpre. rewrite Hstep in Hpre. simpl in Hpre.
  unfold checkout_branch.
  fold (control_path_step E config_path control_path).
  unfold mbind at 1, M_bind at 1. rewrite Hstep.
  unfold mbind at 1, M_bind at 1. rewrite call_run, Hgit. simpl.
  unfold mbind at 1, M_bind at 1. rewrite check_config_path_run. simpl.
  rewrite Hcfg.
  unfold mbind at 1, M_bind at 1. rewrite call_run. simpl. rewrite Hlab. simpl.
  unfold mbind at 1, M_bind at 1. rewrite call_run. simpl. rewrite Hmeta. simpl.
  unfold mbind at 1, M_bind at 1. rewrite call_run. simpl.
  destruct (Metadata_setup E m keep_uuid (is_new_experiment || is_new_branch) w4)
    as [[m'|e] w5]; simpl.
  - match goal with
    | |- context [_ {| world := w5; trace := ?tr |}] =>
        destruct (quiet_after_setup E restart_path
                    (resolved_config_path E config_path w2) cp lab
                    (experiment_name m') {| world := w5; trace := tr |})
          as (out & Hout & Fout)
    end.
    rewrite Hout. simpl. rewrite Hpre. rewrite !setup_calls_app.
    rewrite (setup_calls_output _ Fout), Hpre_s. simpl.
    by rewrite !app_nil_r.
  - rewrite Hpre, !setup_calls_app, Hpre_s. simpl. by rewrite !app_nil_r.
Qed.

(** C3. In every run of [checkout_branch], metadata setup is called with
    [keep_uuid] as given and with [is_new_experiment || is_new_branch], and
    with no other flags; it is called exactly once in a run that reaches
    that step, in particular in every run that returns, and not at all in a
    run that an earlier step aborts.  So [is_new_branch = true] sets the
    new-experiment flag. *)
Theorem checkout_branch_metadata_setup (E : Env) (branch_name : string)
    (is_new_branch is_new_experiment keep_uuid : bool)
    (start_point : option string) (restart_path config_path control_path : option Path)
    (model_type : option string) (lab_path : option Path) (s : State) :
  let run := checkout_branch E branch_name is_new_branch is_new_experiment keep_uuid
               start_point restart_path config_path control_path model_type
               lab_path s in
  let flags := (keep_uuid, is_new_experiment || is_new_branch) in
  ∃ added,
    trace (snd run) = trace s ++ added
    ∧ (setup_calls added = [] ∨ setup_calls added = [flags])
    ∧ (fst run = Ok tt → setup_calls added = [flags])
    ∧ (reaches_metadata_setup E branch_name is_new_branch start_point config_path
         control_path model_type lab_path s →
       setup_calls added = [flags])
    ∧ (is_new_branch = true → ∀ k n, (k, n) ∈ setup_calls added → n = true).
Proof.
  intros run flags.
  destruct run as [r s'] eqn:Hrun.
  destruct (checkout_branch_calls _ _ _ _ _ _ _ _ _ _ _ _ _ _ Hrun)
    as (added & Htr & Hmost & Hret & _).
  exists added. simpl. repeat split; auto.
  - intros Hreach.
    pose proof (checkout_branch_reaches_setup E branch_name is_new_branch
                  is_new_experiment keep_uuid start_point restart_path config_path
                  control_path model_type lab_path s Hreach) as H.
    fold run in H. rewrite Hrun in H. simpl in H.
    rewrite Htr, setup_calls_app in H. by apply app_inv_head in H.
  - intros -> k n Hin. destruct Hmost as [H|H]; rewrite H in Hin.
    + by apply elem_of_nil in Hin.
    + apply list_elem_of_singleton in Hin. subst flags.
      injection Hin as -> ->. apply orb_true_r.
Qed.

(** On the example installation: checking out [expt1] as a new experiment
    returns, with one setup call [(keep_uuid, true)]. *)
Lemma checkout_branch_metadata_setup_witness :
  let run := checkout_branch Demo.env "expt1" false true false None None None None
               None None Demo.s0 in
  fst run = Ok tt ∧ setup_calls (trace (snd run)) = [(false, true)].
Proof.
  intros run. split; [vm_compute; reflexivity|].
  destruct (checkout_branch_metadata_setup Demo.env "expt1" false true false None
              None None None None None Demo.s0)
    as (added & Htr & _ & Hret & _).
  fold run in Htr, Hret. rewrite Htr. simpl.
  apply Hret. vm_compute. reflexivity.
Defined.

(** C2. When the configuration file is missing once git has checked the
    branch out, [checkout_branch] prints the remediation message and raises
    the file-not-found error; the world is the one the git checkout left,
    so the branch stays switched, and nothing after the check has run: no
    Laboratory or Metadata call, no change to the file system. *)
Theorem checkout_branch_missing_config (E : Env) (branch_name : string)
    (is_new_branch is_new_experiment keep_uuid : bool)
    (start_point : option string) (restart_path config_path control_path : option Path)
    (model_type : option string) (lab_path : option Path) (s : State)
    (cp : Path) (s1 : State) (w2 : World) :
  control_path_step E config_path control_path s = (Ok cp, s1) →
  git_checkout_branch E cp branch_name is_new_branch start_point (world s1)
  = (Ok tt, w2) →
  path_exists (fs w2) (resolved_config_path E config_path w2) = false →
  let run := checkout_branch E branch_name is_new_branch is_new_experiment keep_uuid
               start_point restart_path config_path control_path model_type
               lab_path s in
  run = (Raise (FileNotFoundError
                  ("Configuration file " +:+ shown_config_path E config_path
                   +:+ " not found")),
         {| world := w2;
            trace :=
              trace s1
              ++ [Called (CGitCheckoutBranch cp branch_name is_new_branch start_point);
                  Printed NO_CONFIG_FOUND_MESSAGE] |})
  ∧ active_branch_name (world (snd run)) cp = active_branch_name w2 cp
  ∧ fs (world (snd run)) = fs w2
  ∧ setup_calls (trace (snd run)) = setup_calls (trace s).
Proof.
  intros Hstep Hgit Hcfg run.
  assert (Hrun : run
    = (Raise (FileNotFoundError
                ("Configuration file " +:+ shown_config_path E config_path
                 +:+ " not found")),
       {| world := w2;
          trace :=
            trace s1
            ++ [Called (CGitCheckoutBranch cp branch_name is_new_branch start_point);
                Printed NO_CONFIG_FOUND_MESSAGE] |})).
  { subst run. unfold checkout_branch.
    fold (control_path_step E config_path control_path).
    unfold mbind at 1, M_bind at 1. rewrite Hstep.
    unfold mbind at 1, M_bind at 1. rewrite call_run, Hgit. simpl.
    unfold mbind at 1, M_bind at 1. rewrite check_config_path_run. simpl.
    rewrite Hcfg. simpl. by rewrite <- app_assoc. }
  rewrite Hrun. simpl. repeat split.
  destruct (control_path_step_trace E config_path control_path s)
    as (pre & Hpre & Hpre_s & _ & _).
  simpl in Hpre. rewrite Hstep in Hpre. simpl in Hpre.
  rewrite Hpre, !setup_calls_app, Hpre_s. simpl. by rewrite !app_nil_r.
Qed.

(** Scenario A on the example installation: checking out [control], whose
    tree has no [config.yaml], raises, and the active branch is [control]. *)
Lemma checkout_branch_missing_config_witness :
  let run := checkout_branch Demo.env "control" false false false None None None None
               None None Demo.s0 in
  fst run = Raise (FileNotFoundError "Configuration file config.yaml not found")
  ∧ active_branch_name (world (snd run)) Demo.ctrl = Some "control"
  ∧ active_branch_name Demo.w0 Demo.ctrl = Some "main".
Proof.
  intros run.
  pose (s1 := {| world := Demo.w0; trace := [Called (CReadConfig None)] |}).
  pose (w2 := snd (Demo.checkout Demo.ctrl "control" false None Demo.w0)).
  destruct (checkout_branch_missing_config Demo.env "control" false false false None
              None None None None None Demo.s0 Demo.ctrl s1 w2)
    as (Hrun & Hactive & _ & _).
  - vm_compute. reflexivity.
  - vm_compute. reflexivity.
  - vm_compute. reflexivity.
  - fold run in Hrun, Hactive.
    split; [rewrite Hrun; reflexivity|].
    split; [rewrite Hactive; vm_compute; reflexivity|].
    vm_compute. reflexivity.
Defined.

(** ** Directories that stay in place *)

Lemma unlink_keeps_dir (d p : Path) (f f' : FS) :
  unlink f p = Ok f' → f !! d = Some Dir → f' !! d = Some Dir.
Proof.
  unfold unlink. intros H Hd.
  destruct (f !! p) as [[c| |t]|] eqn:Hp; try discriminate;
    injection H as <-; (rewrite lookup_delete_ne; [done | congruence]).
Qed.

Lemma symlink_to_keeps_dir (d p t : Path) (f f' : FS) :
  symlink_to f p t = Ok f' → f !! d = Some Dir → f' !! d = Some Dir.
Proof.
  unfold symlink_to, lexists. intros H Hd.
  destruct (f !! p) eqn:Hp; [discriminate|].
  destruct (is_dir f (parent p)); [|discriminate].
  injection H as <-. rewrite lookup_insert_ne; [done | congruence].
Qed.

Lemma write_file_keeps_dir (d p : Path) (c : string) (f f' : FS) :
  write_file f p c = Ok f' → f !! d = Some Dir → f' !! d = Some Dir.
Proof.
  unfold write_file. intros H Hd.
  destruct (f !! resolve f p) as [[c0| |t]|] eqn:Hq; try discriminate.
  - injection H as <-. rewrite lookup_insert_ne; [done | congruence].
  - destruct (is_dir f (parent (resolve f p))); [|discriminate].
    injection H as <-. rewrite lookup_insert_ne; [done | congruence].
Qed.

Section KeepsDir.

Context (d : Path).

Lemma keeps_dir_ret {A : Type} (a : A) : keeps_dir d (mret a : M A).
Proof. by intros s. Qed.

Lemma keeps_dir_raise {A : Type} (e : Exn) : keeps_dir d (raise e : M A).
Proof. by intros s. Qed.

Lemma keeps_dir_lift {A : Type} (r : Result A) : keeps_dir d (lift r).
Proof. by intros s. Qed.

Lemma keeps_dir_get_fs : keeps_dir d get_fs.
Proof. by intros s. Qed.

Lemma keeps_dir_print (text : string) : keeps_dir d (print text).
Proof. by intros s. Qed.

Lemma keeps_dir_warn (text : string) : keeps_dir d (warn text).
Proof. by intros s. Qed.

Lemma keeps_dir_chdir (p : Path) : keeps_dir d (chdir p).
Proof. intros s H. unfold chdir. by destruct (stat _ p) as [[| |]|]. Qed.

Lemma keeps_dir_fs_op (op : FS → Result FS) :
  (∀ f f', op f = Ok f' → f !! d = Some Dir → f' !! d = Some Dir) →
  keeps_dir d (fs_op op).
Proof.
  intros Hop s H. unfold fs_op.
  destruct (op (fs (world s))) as [f'|e] eqn:Hf; simpl; [|done].
  by apply (Hop _ _ Hf).
Qed.

Lemma keeps_dir_call {A : Type} (c : Call) (f : World → Result A * World) :
  leaves_dir d f → keeps_dir d (call c f).
Proof. intros Hf s H. rewrite call_run. simpl. by apply Hf. Qed.

Lemma keeps_dir_bind {A B : Type} (m : M A) (k : A → M B) :
  keeps_dir d m → (∀ a, keeps_dir d (k a)) → keeps_dir d (m ≫= k).
Proof.
  intros Hm Hk s H. unfold mbind, M_bind.
  specialize (Hm s H).
  destruct (m s) as [[a|e] s1]; simpl in *; [by apply Hk | done].
Qed.

Lemma keeps_dir_switch_symlink (L C : Path) (E k : string) :
  keeps_dir d (switch_symlink L C E k).
Proof.
  unfold switch_symlink.
  apply keeps_dir_bind; [apply keeps_dir_get_fs | intros f].
  apply keeps_dir_bind.
  - destruct (_ && _); [|apply keeps_dir_ret].
    apply keeps_dir_bind; [|intros _; apply keeps_dir_print].
    apply keeps_dir_fs_op. intros g g'. apply unlink_keeps_dir.
  - intros _. apply keeps_dir_bind; [apply keeps_dir_get_fs | intros g].
    destruct (path_exists g _); [|apply keeps_dir_ret].
    apply keeps_dir_bind; [|intros _; apply keeps_dir_print].
    apply keeps_dir_fs_op. intros h h'. apply symlink_to_keeps_dir.
Qed.

Lemma keeps_dir_add_restart_to_config (E : Env) (restart_path config_path : Path) :
  keeps_dir d (add_restart_to_config E restart_path config_path).
Proof.
  unfold add_restart_to_config, yaml_load_path, yaml_dump_path.
  apply keeps_dir_bind; [apply keeps_dir_get_fs | intros f].
  destruct (_ || _); [apply keeps_dir_warn|].
  apply keeps_dir_bind.
  { apply keeps_dir_bind; [apply keeps_dir_get_fs | intros g].
    apply keeps_dir_bind; [apply keeps_dir_lift | intros text].
    apply keeps_dir_lift. }
  intros config. apply keeps_dir_bind; [apply keeps_dir_lift | intros config'].
  apply keeps_dir_bind; [|intros _; apply keeps_dir_print].
  apply keeps_dir_fs_op. intros g g'. apply write_file_keeps_dir.
Qed.

(** [checkout_branch] with the control path given, as [clone] calls it. *)
Lemma keeps_dir_checkout_branch (E : Env) (branch_name : string)
    (is_new_branch is_new_experiment keep_uuid : bool)
    (start_point : option string) (restart_path config_path : option Path)
    (cp : Path) (model_type : option string) (lab_path : option Path) :
  collaborators_leave_dir E d →
  keeps_dir d
    (checkout_branch E branch_name is_new_branch is_new_experiment keep_uuid
       start_point restart_path config_path (Some cp) model_type lab_path).
Proof.
  intros (_ & _ & Hgit & Hlab & Hmeta & Hsetup).
  unfold checkout_branch.
  apply keeps_dir_bind; [apply keeps_dir_ret | intros control_path].
  apply keeps_dir_bind; [by apply keeps_dir_call | intros _].
  apply keeps_dir_bind.
  { intros s H. rewrite check_config_path_run. simpl.
    by destruct (path_exists _ _). }
  intros cfg.
  apply keeps_dir_bind; [by apply keeps_dir_call | intros lab].
  apply keeps_dir_bind; [by apply keeps_dir_call | intros m].
  apply keeps_dir_bind; [by apply keeps_dir_call | intros m'].
  apply keeps_dir_bind.
  { destruct restart_path;
      [apply keeps_dir_add_restart_to_config | apply keeps_dir_ret]. }
  intros _.
  apply keeps_dir_bind; [apply keeps_dir_switch_symlink | intros _].
  apply keeps_dir_switch_symlink.
Qed.

End KeepsDir.

(** ** [clone] *)

(** C4. The working directory when [clone] exits, whether it returns or
    raises, is the working directory at the call: provided git clone itself
    does not change directory, and no collaborator removes that directory
    while clone runs. *)
Theorem clone_restores_cwd (E : Env) (repository : string) (directory : Path)
    (branch new_branch_name : option string) (keep_uuid : bool)
    (model_type : option string) (config_path lab_path restart_path : option Path)
    (s : State) :
  (∀ w, cwd (snd (git_clone E repository directory branch w)) = cwd w) →
  collaborators_leave_dir E (cwd (world s)) →
  cwd (world (snd (clone E repository directory branch new_branch_name keep_uuid
                     model_type config_path lab_path restart_path s)))
  = cwd (world s).
Proof.
  intros Hcwd Hkeep.
  set (d := cwd (world s)) in *.
  unfold clone.
  unfold mbind at 1, M_bind at 1. rewrite call_run.
  pose proof (Hcwd (world s)) as Hc1. fold d in Hc1.
  destruct Hkeep as (Hclone & Hrest).
  pose proof (Hclone repository directory branch (world s)) as Hd1.
  destruct (git_clone E repository directory branch (world s)) as [[[]|e] w1];
    simpl in *; [|exact Hc1].
  unfold mbind at 1, M_bind at 1. unfold get_fs at 1. simpl.
  unfold mbind at 1, M_bind at 1. unfold getcwd at 1. simpl.
  rewrite Hc1.
  destruct (fs w1 !! d) as [[c| |t]|] eqn:Hd; simpl; try exact Hc1.
  unfold mbind at 1, M_bind at 1.
  set (s1 := {| world := w1; trace := _ |}).
  match goal with
  | |- context [try_finally ?body _ s1] =>
      assert (Hbody : keeps_dir d body)
  end.
  { apply keeps_dir_bind; [apply keeps_dir_chdir | intros _].
    destruct new_branch_name as [nb|].
    - apply keeps_dir_checkout_branch. by split.
    - apply keeps_dir_bind.
      + destruct branch; [apply keeps_dir_ret|].
        apply keeps_dir_call. apply Hrest.
      + intros b. apply keeps_dir_checkout_branch. by split. }
  unfold try_finally.
  specialize (Hbody s1 Hd).
  match goal with
  | |- context [match ?body s1 with _ => _ end] =>
      destruct (body s1) as [r s2]
  end.
  simpl in Hbody.
  unfold chdir. rewrite stat_not_link by (intros t; rewrite Hbody; discriminate).
  rewrite Hbody. simpl.
  rewrite resolve_not_link by (intros t; rewrite Hbody; discriminate).
  destruct r; reflexivity.
Qed.

(** The example installation never removes a directory. *)
Lemma demo_remove_tree_keeps (d cp : Path) (blobs : list Blob) (f : FS) :
  f !! d = Some Dir → Demo.remove_tree cp blobs f !! d = Some Dir.
Proof.
  intros H. induction blobs as [|b blobs IH]; simpl; [done|].
  unfold Demo.drop_file.
  destruct (Demo.remove_tree cp blobs f !! joinpath cp (blob_name b))
    as [[c| |t]|] eqn:Hp; try done.
  rewrite lookup_delete_ne; [done | congruence].
Qed.

Lemma demo_write_tree_keeps (d cp : Path) (blobs : list Blob) (f : FS) :
  f !! d = Some Dir → Demo.write_tree cp blobs f !! d = Some Dir.
Proof.
  intros H. induction blobs as [|b blobs IH]; simpl; [done|].
  unfold Demo.put_file.
  destruct (Demo.write_tree cp blobs f !! joinpath cp (blob_name b))
    as [[c| |t]|] eqn:Hp; try done;
    (rewrite lookup_insert_ne; [done | congruence]).
Qed.

Lemma demo_leaves_dir (d : Path) : collaborators_leave_dir Demo.env d.
Proof.
  repeat split; simpl.
  - intros repository directory branch w H. unfold Demo.clone_repo.
    destruct (lexists (fs w) directory); [done|].
    destruct (match branch with Some _ => _ | None => _ end); [|done].
    simpl. apply demo_write_tree_keeps.
    destruct (decide (directory = d)) as [->|Hne].
    + apply lookup_insert_eq.
    + by rewrite lookup_insert_ne.
  - intros cp w H. unfold Demo.current_branch.
    by destruct (active_branch_name w cp).
  - intros cp b nb sp w H. unfold Demo.checkout.
    destruct (repos w !! cp) as [r|]; [|done].
    destruct nb.
    + destruct (Demo.find_head b (repo_heads r)); [done|].
      destruct (match sp with Some _ => _ | None => _ end); [|done].
      simpl. by apply demo_write_tree_keeps, demo_remove_tree_keeps.
    + destruct (Demo.find_head b (repo_heads r)); [|done].
      simpl. by apply demo_write_tree_keeps, demo_remove_tree_keeps.
  - by intros mt cfg lab w H.
  - by intros archive b cfg w H.
  - by intros m k n w H.
Qed.

Lemma demo_clone_keeps_cwd (repository : string) (directory : Path)
    (branch : option string) (w : World) :
  cwd (snd (git_clone Demo.env repository directory branch w)) = cwd w.
Proof.
  simpl. unfold Demo.clone_repo.
  destruct (lexists (fs w) directory); [done|].
  by destruct (match branch with Some _ => _ | None => _ end).
Qed.

(** On the example installation: cloning the branch [control], which has no
    configuration file, raises from inside the checkout, and the working
    directory is the one before the call. *)
Lemma clone_restores_cwd_witness :
  let run := clone Demo.env "url" ["home"; "new"] (Some "control") None false None
               None None None Demo.s0 in
  fst run = Raise (FileNotFoundError "Configuration file config.yaml not found")
  ∧ cwd (world (snd run)) = Demo.ctrl.
Proof.
  intros run. split; [vm_compute; reflexivity|].
  exact (clone_restores_cwd Demo.env "url" ["home"; "new"] (Some "control") None
           false None None None None Demo.s0
           (demo_clone_keeps_cwd "url" ["home"; "new"] (Some "control"))
           (demo_leaves_dir (cwd (world Demo.s0)))).
Defined.

Ltac no_calls :=
  repeat split; simpl in *; intros; try discriminate;
  try match goal with H : _ ∈ [] |- _ => by apply elem_of_nil in H end.

Lemma chdir_trace (p : Path) (s : State) : trace (snd (chdir p s)) = trace s.
Proof. unfold chdir. by destruct (stat _ p) as [[| |]|]. Qed.

Lemma chdir_ok (p : Path) (s s' : State) :
  chdir p s = (Ok tt, s') →
  s' = {| world := set_cwd (resolve (fs (world s)) p) (world s); trace := trace s |}.
Proof.
  unfold chdir. destruct (stat _ p) as [[| |]|]; intros H; by simplify_eq.
Qed.

(** The calls of a run of [clone] that creates no branch. *)
Lemma clone_existing_calls (E : Env) (repository : string)
    (directory : Path) (branch : option string) (keep_uuid : bool)
    (model_type : option string) (config_path lab_path restart_path : option Path)
    (s : State) (r : Result unit) (s' : State) :
  clone E repository directory branch None keep_uuid model_type
    config_path lab_path restart_path s = (r, s') →
  let w1 := snd (git_clone E repository directory branch (world s)) in
  let control_path := resolve (fs w1) directory in
  let w2 := set_cwd (resolve (fs w1) control_path) w1 in
  ∃ added,
    trace s' = trace s ++ added
    ∧ (∀ k n, (k, n) ∈ setup_calls added → k = keep_uuid ∧ n = true)
    ∧ (∀ cp b nb sp, (cp, b, nb, sp) ∈ git_checkout_calls added →
         cp = control_path ∧ nb = false ∧ sp = None
         ∧ match branch with
           | Some given => b = given
           | None => fst (get_git_branch E control_path w2) = Ok b
           end)
    ∧ (r = Ok tt →
       setup_calls added = [(keep_uuid, true)]
       ∧ ∃ b, git_checkout_calls added = [(control_path, b, false, None)]).
Proof.
  intros Hrun w1 control_path w2.
  unfold clone in Hrun.
  unfold mbind at 1, M_bind at 1 in Hrun. rewrite call_run in Hrun. fold w1 in Hrun.
  set (c1 := Called (CGitClone repository directory branch)) in Hrun.
  destruct (fst (git_clone E repository directory branch (world s))) as [[]|e].
  2:{ injection Hrun as <- <-. exists [c1]. simpl. no_calls. }
  unfold mbind at 1, M_bind at 1 in Hrun. unfold get_fs at 1 in Hrun.
  simpl in Hrun. fold control_path in Hrun.
  unfold mbind at 1, M_bind at 1 in Hrun. unfold getcwd at 1 in Hrun. simpl in Hrun.
  destruct (fs w1 !! cwd w1) as [[c| |t]|] eqn:Hd; simpl in Hrun.
  1,3,4: injection Hrun as <- <-; exists [c1]; simpl; no_calls.
  unfold mbind at 1, M_bind at 1 in Hrun. unfold try_finally in Hrun.
  unfold mbind at 1, M_bind at 1 in Hrun.
  set (s1 := {| world := w1; trace := trace s ++ [c1] |}) in Hrun.
  pose proof (chdir_trace control_path s1) as Htr2.
  destruct (chdir control_path s1) as [[[]|e] s2] eqn:Hcd; simpl in Htr2.
  2:{ pose proof (chdir_trace (cwd w1) s2) as Htr3.
      exists [c1].
      destruct (chdir (cwd w1) s2) as [[[]|e'] s3]; simpl in *;
        injection Hrun as <- <-; rewrite Htr3, Htr2; no_calls. }
  apply chdir_ok in Hcd. simpl in Hcd. fold w2 in Hcd.
  (* the branch to check out *)
  unfold mbind at 1, M_bind at 1 in Hrun.
  set (pick := match branch with
               | Some b => mret b
               | None => call (CGetGitBranch control_path)
                              (get_git_branch E control_path)
               end) in Hrun.
  assert (Hpick : ∃ pre,
             trace (snd (pick s2)) = trace s2 ++ pre
             ∧ setup_calls pre = [] ∧ git_checkout_calls pre = []
             ∧ ∀ b, fst (pick s2) = Ok b →
                 match branch with
                 | Some given => b = given
                 | None => fst (get_git_branch E control_path w2) = Ok b
                 end).
  { subst pick. destruct branch as [given|].
    - exists []. rewrite app_nil_r. repeat split. by intros b [= ->].
    - exists [Called (CGetGitBranch control_path)]. rewrite call_run.
      rewrite Hcd. simpl. repeat split. by intros b ->. }
  destruct Hpick as (pre & Hpre & Hpre_s & Hpre_g & Hname).
  destruct (pick s2) as [[b|e] s3]; simpl in Hpre, Hname.
  2:{ pose proof (chdir_trace (cwd w1) s3) as Htr4.
      exists (c1 :: pre).
      assert (Hno : setup_calls (c1 :: pre) = []
                    ∧ git_checkout_calls (c1 :: pre) = []) by (by simpl).
      destruct Hno as [Hno1 Hno2].
      destruct (chdir (cwd w1) s3) as [[[]|e'] s4]; simpl in Hrun, Htr4;
        injection Hrun as <- <-; rewrite Hno1, Hno2, Htr4, Hpre, Htr2, <- app_assoc;
        no_calls. }
  specialize (Hname b eq_refl).
  destruct (checkout_branch E b false true keep_uuid None restart_path config_path
              (Some control_path) model_type lab_path s3) as [rc s4] eqn:Hco.
  destruct (checkout_branch_calls _ _ _ _ _ _ _ _ _ _ _ _ _ _ Hco)
    as (co & Hco_tr & Hco_most & Hco_ret & Hco_git).
  specialize (Hco_git control_path eq_refl). simpl in Hco_most, Hco_ret.
  pose proof (chdir_trace (cwd w1) s4) as Htr5.
  assert (Hs : ∀ post, Forall is_output post →
                setup_calls (c1 :: pre ++ co ++ post) = setup_calls co).
  { intros post Hpost. change (c1 :: pre ++ co ++ post) with ([c1] ++ pre ++ co ++ post).
    rewrite !setup_calls_app, Hpre_s, (setup_calls_output _ Hpost). simpl.
    by rewrite app_nil_r. }
  assert (Hg : ∀ post, Forall is_output post →
                git_checkout_calls (c1 :: pre ++ co ++ post)
                = [(control_path, b, false, @None string)]).
  { intros post Hpost. change (c1 :: pre ++ co ++ post) with ([c1] ++ pre ++ co ++ post).
    rewrite !git_checkout_calls_app, Hpre_g, Hco_git,
      (git_checkout_calls_output _ Hpost). done. }
  assert (Hflags : ∀ k n, (k, n) ∈ setup_calls co → k = keep_uuid ∧ n = true).
  { intros k n Hin. destruct Hco_most as [H|H]; rewrite H in Hin.
    - by apply elem_of_nil in Hin.
    - apply list_elem_of_singleton in Hin. by injection Hin as -> ->. }
  assert (Hcalls : ∀ cp b' nb sp,
             (cp, b', nb, sp) ∈ [(control_path, b, false, @None string)] →
             cp = control_path ∧ nb = false ∧ sp = None
             ∧ match branch with
               | Some given => b' = given
               | None => fst (get_git_branch E control_path w2) = Ok b'
               end).
  { intros cp b' nb sp Hin. apply list_elem_of_singleton in Hin.
    by injection Hin as -> -> -> ->. }
  set (line := Printed ("To change directory to control directory run:
  cd " +:+ str_path directory)).
  assert (Hshape : ∀ post, Forall is_output post →
             (rc = Ok tt ∨ r ≠ Ok tt) →
             trace s' = trace s ++ c1 :: pre ++ co ++ post →
             ∃ added,
               trace s' = trace s ++ added
               ∧ (∀ k n, (k, n) ∈ setup_calls added → k = keep_uuid ∧ n = true)
               ∧ (∀ cp b' nb sp, (cp, b', nb, sp) ∈ git_checkout_calls added →
                    cp = control_path ∧ nb = false ∧ sp = None
                    ∧ match branch with
                      | Some given => b' = given
                      | None => fst (get_git_branch E control_path w2) = Ok b'
                      end)
               ∧ (r = Ok tt →
                  setup_calls added = [(keep_uuid, true)]
                  ∧ ∃ b', git_checkout_calls added = [(control_path, b', false, None)])).
  { intros post Hpost Hr Htr. exists (c1 :: pre ++ co ++ post).
    rewrite (Hs post Hpost), (Hg post Hpost).
    split; [exact Htr|]. split; [exact Hflags|]. split; [exact Hcalls|].
    intros ->. destruct Hr as [->|Hr]; [|done].
    split; [by apply Hco_ret | by exists b]. }
  destruct (chdir (cwd w1) s4) as [[[]|e'] s5]; simpl in Hrun, Htr5.
  - destruct rc as [[]|e]; simpl in Hrun; injection Hrun as <- <-.
    + apply (Hshape [line]); [by repeat constructor | by left |].
      simpl. by rewrite Htr5, Hco_tr, Hpre, Htr2, <- !app_assoc.
    + apply (Hshape []); [constructor | by right |].
      rewrite app_nil_r. by rewrite Htr5, Hco_tr, Hpre, Htr2, <- !app_assoc.
  - injection Hrun as <- <-.
    apply (Hshape []); [constructor | by right |].
    rewrite app_nil_r. by rewrite Htr5, Hco_tr, Hpre, Htr2, <- !app_assoc.
Qed.

(** C8. In a run of [clone] with no new branch name, the branch handed to
    git checkout is the [branch] argument or, when that is absent, the
    name that [get_git_branch] returns for the cloned control directory,
    and it is checked out as an existing branch; metadata setup is called
    with [keep_uuid] as given and [is_new_experiment = true], and with no
    other flags.  Both calls are made once in a run that returns. *)
Theorem clone_checks_out_existing_branch (E : Env) (repository : string)
    (directory : Path) (branch : option string) (keep_uuid : bool)
    (model_type : option string) (config_path lab_path restart_path : option Path)
    (s : State) :
  let run := clone E repository directory branch None keep_uuid model_type
               config_path lab_path restart_path s in
  let w1 := snd (git_clone E repository directory branch (world s)) in
  let control_path := resolve (fs w1) directory in
  let w2 := set_cwd (resolve (fs w1) control_path) w1 in
  ∃ added,
    trace (snd run) = trace s ++ added
    ∧ (∀ k n, (k, n) ∈ setup_calls added → k = keep_uuid ∧ n = true)
    ∧ (∀ cp b nb sp, (cp, b, nb, sp) ∈ git_checkout_calls added →
         cp = control_path ∧ nb = false ∧ sp = None
         ∧ match branch with
           | Some given => b = given
           | None => fst (get_git_branch E control_path w2) = Ok b
           end)
    ∧ (fst run = Ok tt →
       setup_calls added = [(keep_uuid, true)]
       ∧ ∃ b, git_checkout_calls added = [(control_path, b, false, None)]).
Proof.
  intros run. destruct run as [r s'] eqn:Hrun.
  exact (clone_existing_calls _ _ _ _ _ _ _ _ _ _ _ _ Hrun).
Qed.

(** On the example installation: a clone with neither branch nor new
    branch name checks out [main], the active branch of the clone, and
    calls metadata setup as for a new experiment. *)
Lemma clone_checks_out_existing_branch_witness :
  let run := clone Demo.env "url" ["home"; "new"] None None false None None None None
               Demo.s0 in
  fst run = Ok tt
  ∧ setup_calls (trace (snd run)) = [(false, true)]
  ∧ git_checkout_calls (trace (snd run)) = [(["home"; "new"], "main", false, None)].
Proof.
  intros run.
  assert (Hok : fst run = Ok tt) by (vm_compute; reflexivity).
  split; [exact Hok|].
  destruct (clone_checks_out_existing_branch Demo.env "url" ["home"; "new"] None
              false None None None None Demo.s0)
    as (added & Htr & _ & Hgit & Hret).
  fold run in Htr, Hret. destruct (Hret Hok) as [Hs [b Hb]].
  rewrite Htr. simpl. split; [exact Hs|].
  rewrite Hb.
  destruct (Hgit (["home"; "new"]) b false None) as (_ & _ & _ & Hname).
  - rewrite Hb. apply list_elem_of_singleton. reflexivity.
  - vm_compute in Hname. by injection Hname as <-.
Defined.

(** ** [print_branch_metadata] and [list_branches] *)

Lemma scan_blobs_app (blobs : list Blob) (acc : bool * option string) :
  fold_left
    (fun acc blob =>
       (if bool_decide (blob_name blob = "config.yaml") then true else fst acc,
        if bool_decide (blob_name blob = "metadata.yaml") then Some (blob_data blob)
        else snd acc))
    blobs acc
  = (fst acc || existsb (fun b => bool_decide (blob_name b = "config.yaml")) blobs,
     match blob_content "metadata.yaml" blobs with
     | Some text => Some text
     | None => snd acc
     end).
Proof.
  revert acc. induction blobs as [|b blobs IH]; intros [c m]; simpl.
  - by rewrite orb_false_r.
  - rewrite IH. simpl. f_equal.
    + destruct (bool_decide (blob_name b = "config.yaml")); simpl;
        [by rewrite orb_true_r | done].
    + destruct (blob_content "metadata.yaml" blobs); [done|].
      by destruct (bool_decide (blob_name b = "metadata.yaml")).
Qed.

(** The scan of the blobs finds what the specification names. *)
Lemma scan_blobs_spec (branch : Head) :
  scan_blobs (head_blobs branch)
  = (has_blob "config.yaml" branch, blob_content "metadata.yaml" (head_blobs branch)).
Proof.
  unfold scan_blobs, has_blob. rewrite scan_blobs_app. simpl.
  by destruct (blob_content _ _).
Qed.

Lemma for_each_print (lines : list string) (s : State) :
  for_each lines (fun line => print ("    " +:+ line)) s
  = (Ok tt,
     {| world := world s;
        trace := trace s ++ map Printed (map (fun line => "    " +:+ line) lines) |}).
Proof.
  revert s. induction lines as [|l lines IH]; intros s; simpl.
  - rewrite app_nil_r. by destruct s.
  - unfold mbind, M_bind, print at 1, emit. simpl. rewrite IH. simpl.
    by rewrite <- app_assoc.
Qed.

(** [print_branch_metadata] prints the summary, or raises before printing. *)
Lemma print_branch_metadata_run (E : Env) (branch : Head) (verbose : bool)
    (s : State) :
  print_branch_metadata E branch verbose s
  = match summary_spec E branch verbose with
    | Ok lines =>
        (Ok tt, {| world := world s; trace := trace s ++ map Printed lines |})
    | Raise e => (Raise e, s)
    end.
Proof.
  unfold print_branch_metadata, summary_spec. rewrite scan_blobs_spec.
  destruct (has_blob "config.yaml" branch); simpl; [|reflexivity].
  destruct (blob_content "metadata.yaml" (head_blobs branch)) as [text|];
    [|reflexivity].
  destruct verbose; [apply for_each_print|].
  unfold mbind, M_bind, lift.
  destruct (yaml_load E text) as [y|e]; [|reflexivity].
  destruct (yaml_get y (UUID_FIELD E)) as [[u|]|e]; reflexivity.
Qed.

(** The loop of [list_branches] over the chosen branches. *)
Lemma list_branches_loop (E : Env) (label : string) (current : Head)
    (verbose : bool) (branches : list (string * Head)) (s : State) :
  for_each branches
    (fun item =>
       if negb (head_eqb (snd item) current) then
         print (label +:+ ": " +:+ fst item);;
         print_branch_metadata E (snd item) verbose
       else mret tt) s
  = (match snd (listing_spec E label verbose (other_branches current branches)) with
     | None => Ok tt
     | Some e => Raise e
     end,
     {| world := world s;
        trace :=
          trace s
          ++ map Printed
               (fst (listing_spec E label verbose (other_branches current branches))) |}).
Proof.
  revert s. induction branches as [|[name b] rest IH]; intros s; simpl.
  - rewrite app_nil_r. by destruct s.
  - unfold other_branches. simpl. fold (other_branches current rest).
    unfold mbind at 1, M_bind at 1.
    destruct (head_eqb b current); simpl.
    + unfold mret, M_ret. apply IH.
    + unfold mbind at 1, M_bind at 1. unfold print at 1, emit. simpl.
      rewrite print_branch_metadata_run.
      destruct (summary_spec E b verbose) as [lines|e]; simpl.
      * rewrite IH. simpl.
        destruct (listing_spec E label verbose (other_branches current rest))
          as [more err]. simpl.
        by rewrite <- !app_assoc, map_app.
      * reflexivity.
Qed.

(** C9, as the code has it.  Once the control path, the repository, its
    active branch and the chosen set of branches are obtained,
    [list_branches] prints the active branch and its summary first, then
    each branch of the set other than the active one, under its label and
    with its summary, in the order of the set.  The summary is: no config
    file; else no metadata file; else, in the plain mode, the UUID field or
    the report that there is none, and in the verbose mode every line of
    the metadata file. *)
Theorem list_branches_output (E : Env) (config_path : option Path)
    (verbose remote : bool) (s : State)
    (cp : Path) (s1 : State) (repo : Repo) (w2 : World) (current : Head)
    (current_lines : list string) (branches : list (string * Head)) (w3 : World) :
  get_control_path E config_path s = (Ok cp, s1) →
  get_git_repository E cp (world s1) = (Ok repo, w2) →
  repo_active repo = Some current →
  summary_spec E current verbose = Ok current_lines →
  (if remote then remote_branches_dict E repo w2 else local_branches_dict E repo w2)
  = (Ok branches, w3) →
  let label := if remote then "Remote Branch" else "Branch" in
  let listing := listing_spec E label verbose (other_branches current branches) in
  list_branches E config_path verbose remote s
  = (match snd listing with
     | None => Ok tt
     | Some e => Raise e
     end,
     {| world := w3;
        trace :=
          trace s1
          ++ Called (CGetGitRepository cp)
             :: map Printed (("* Current Branch: " +:+ head_name current)
                             :: current_lines)
          ++ Called (if remote then CRemoteBranchesDict else CLocalBranchesDict)
             :: map Printed (fst listing) |}).
Proof.
  intros Hcp Hrepo Hactive Hcur Hdict label listing.
  unfold list_branches.
  unfold mbind at 1, M_bind at 1. rewrite Hcp.
  unfold mbind at 1, M_bind at 1. rewrite call_run, Hrepo. simpl.
  unfold mbind at 1, M_bind at 1. unfold active_branch. rewrite Hactive. simpl.
  unfold mbind at 1, M_bind at 1. unfold print at 1, emit. simpl.
  unfold mbind at 1, M_bind at 1. rewrite print_branch_metadata_run, Hcur. simpl.
  unfold mbind at 1, M_bind at 1.
  destruct remote; simpl in *.
  - unfold mbind at 1, M_bind at 1. rewrite call_run. simpl. rewrite Hdict. simpl.
    rewrite list_branches_loop. simpl. f_equal. f_equal.
    rewrite <- !app_assoc. reflexivity.
  - unfold mbind at 1, M_bind at 1. rewrite call_run. simpl. rewrite Hdict. simpl.
    rewrite list_branches_loop. simpl. f_equal. f_equal.
    rewrite <- !app_assoc. reflexivity.
Qed.

(** Scenario B on the example installation: the active branch [main]
    first, then [expt1] with its UUID, and the other branches with what
    they lack. *)
Lemma list_branches_output_witness :
  printed (trace (snd (list_branches Demo.env None false false Demo.s0)))
  = ["* Current Branch: main"; "    No metadata file found";
     "Branch: expt1"; "    uuid: abc-123";
     "Branch: control"; "    No config file found";
     "Branch: draft"; "    No UUID in metadata file"].
Proof.
  rewrite (list_branches_output Demo.env None false false Demo.s0 Demo.ctrl
             {| world := Demo.w0; trace := [Called (CReadConfig None)] |}
             Demo.upstream Demo.w0 Demo.main_head ["    No metadata file found"]
             [("main", Demo.main_head); ("expt1", Demo.expt1_head);
              ("control", Demo.control_head); ("draft", Demo.draft_head)]
             Demo.w0);
    vm_compute; reflexivity.
Defined.

(** C9 as stated fails in the verbose mode: for the branch [draft], whose
    metadata file has no UUID, the verbose listing prints the lines of the
    file and not the report that the UUID is missing. *)
Lemma list_branches_verbose_counterexample :
  ¬ lists_plain_summaries Demo.env None true false Demo.s0.
Proof.
  intros H.
  specialize (H Demo.ctrl
                {| world := Demo.w0; trace := [Called (CReadConfig None)] |}
                Demo.upstream Demo.w0 Demo.main_head ["    No metadata file found"]
                [("main", Demo.main_head); ("expt1", Demo.expt1_head);
                 ("control", Demo.control_head); ("draft", Demo.draft_head)]
                Demo.w0 eq_refl eq_refl eq_refl eq_refl eq_refl).
  vm_compute in H. discriminate H.
Qed.

Lemma printed_app (a b : list Event) : printed (a ++ b) = printed a ++ printed b.
Proof. unfold printed. apply omap_app. Qed.

Lemma printed_map (lines : list string) : printed (map Printed lines) = lines.
Proof. induction lines as [|l lines IH]; simpl; [done | by rewrite IH]. Qed.

(** The run of [list_branches] once the collaborators have returned. *)
Lemma list_branches_run (E : Env) (config_path : option Path)
    (verbose remote : bool) (s : State)
    (cp : Path) (s1 : State) (repo : Repo) (w2 : World) (current : Head)
    (current_lines : list string) (branches : list (string * Head)) (w3 : World) :
  get_control_path E config_path s = (Ok cp, s1) →
  get_git_repository E cp (world s1) = (Ok repo, w2) →
  repo_active repo = Some current →
  summary_spec E current verbose = Ok current_lines →
  (if remote then remote_branches_dict E repo w2 else local_branches_dict E repo w2)
  = (Ok branches, w3) →
  printed (trace (snd (list_branches E config_path verbose remote s)))
  = printed (trace s1)
    ++ ("* Current Branch: " +:+ head_name current) :: current_lines
    ++ fst (listing_spec E (if remote then "Remote Branch" else "Branch") verbose
              (other_branches current branches)).
Proof.
  intros Hcp Hrepo Hactive Hcur Hdict.
  unfold list_branches.
  unfold mbind at 1, M_bind at 1. rewrite Hcp.
  unfold mbind at 1, M_bind at 1. rewrite call_run, Hrepo. simpl.
  unfold mbind at 1, M_bind at 1. unfold active_branch. rewrite Hactive. simpl.
  unfold mbind at 1, M_bind at 1. unfold print at 1, emit. simpl.
  unfold mbind at 1, M_bind at 1. rewrite print_branch_metadata_run, Hcur. simpl.
  unfold mbind at 1, M_bind at 1.
  destruct remote; simpl in *.
  - unfold mbind at 1, M_bind at 1. rewrite call_run. simpl. rewrite Hdict. simpl.
    rewrite list_branches_loop. simpl.
    rewrite !printed_app, !printed_map. simpl. by rewrite <- !app_assoc.
  - unfold mbind at 1, M_bind at 1. rewrite call_run. simpl. rewrite Hdict. simpl.
    rewrite list_branches_loop. simpl.
    rewrite !printed_app, !printed_map. simpl. by rewrite <- !app_assoc.
Qed.

(** In the plain mode the listing is the plain one. *)
Lemma list_branches_plain (E : Env) (config_path : option Path) (remote : bool)
    (s : State) :
  lists_plain_summaries E config_path false remote s.
Proof.
  intros cp s1 repo w2 current current_lines branches w3 Hcp Hrepo Hact Hcur Hdict.
  exact (list_branches_run E config_path false remote s cp s1 repo w2 current
           current_lines branches w3 Hcp Hrepo Hact Hcur Hdict).
Qed.

(** * Further properties of the code *)

(** ** [switch_symlink]: what it leaves alone, and its edge cases *)

Lemma switch_fs_other (f : FS) (sp dp p : Path) :
  p ≠ sp → switch_fs f sp dp !! p = f !! p.
Proof.
  intros Hne. unfold switch_fs.
  destruct (removal_phase f sp) as [f1|e] eqn:HA; [|done].
  assert (H1 : f1 !! p = f !! p).
  { apply removal_phase_inv in HA as [[-> _]|[-> _]]; [done|].
    by rewrite lookup_delete_ne. }
  destruct (creation_phase f1 sp dp) as [f2|e] eqn:HB; [|done].
  apply creation_phase_inv in HB as [->|[-> _]]; [done|].
  by rewrite lookup_insert_ne.
Qed.

Lemma app_cons_ne {A : Type} (l r : list A) (x : A) : l ++ x :: r ≠ l.
Proof.
  intros H. apply (f_equal length) in H. rewrite length_app in H. simpl in H. lia.
Qed.

Lemma chase_step (n : nat) (f : FS) (p : Path) :
  chase (S n) f p
  = match f !! p with
    | Some (Link t) => chase n f t
    | _ => p
    end.
Proof. reflexivity. Qed.

(** X1. [switch_symlink] changes nothing but the entry at
    [control_path / sym_dir]: every other path holds what it held, the
    working directory and the repositories are as they were, and no
    directory, at whatever path, is removed or replaced. *)
Theorem switch_symlink_frame (L C : Path) (E k : string) (s : State) :
  let s' := snd (switch_symlink L C E k s) in
  cwd (world s') = cwd (world s)
  ∧ repos (world s') = repos (world s)
  ∧ (∀ p, p ≠ joinpath C k → fs (world s') !! p = fs (world s) !! p)
  ∧ (∀ d, fs (world s) !! d = Some Dir → fs (world s') !! d = Some Dir).
Proof.
  intros s'. subst s'. rewrite switch_symlink_world.
  destruct s as [[f d r] tr]. simpl. repeat split.
  - intros p Hne. by apply switch_fs_other.
  - intros d' Hd.
    pose proof (keeps_dir_switch_symlink d' L C E k
                  {| world := {| fs := f; cwd := d; repos := r |}; trace := tr |} Hd)
      as H.
    by rewrite switch_symlink_world in H.
Qed.


(** X2. On a dangling symlink at [control_path / sym_dir] the removal is
    skipped, whatever the link points to: with no experiment directory
    the call returns having done and printed nothing; with one, the
    creation raises [FileExistsError] and again nothing has changed. *)
Theorem switch_symlink_dangling (L C : Path) (E k : string) (t : Path) (s : State) :
  fs (world s) !! joinpath C k = Some (Link t) →
  path_exists (fs (world s)) (joinpath C k) = false →
  switch_symlink L C E k s
  = if path_exists (fs (world s)) (joinpath L E)
    then (Raise (FileExistsError (joinpath C k)), s)
    else (Ok tt, s).
Proof.
  intros Hlink Hdead. destruct s as [[f d r] tr]. simpl in *.
  unfold switch_symlink.
  unfold mbind, M_bind, mret, M_ret, get_fs, fs_op, print, emit. simpl.
  rewrite Hdead. simpl.
  destruct (path_exists f (joinpath L E)); [|reflexivity].
  simpl. unfold symlink_to, lexists. by rewrite Hlink.
Qed.

(** Both cases on an example: a [work] link to a deleted run. *)
Lemma switch_symlink_dangling_witness :
  let f : FS :=
    {[ ["ctrl"] := Dir; ["ctrl"; "work"] := Link ["lab"; "old"];
       ["lab"] := Dir; ["lab"; "new"] := Dir ]} in
  let s := {| world := {| fs := f; cwd := ["ctrl"]; repos := ∅ |}; trace := [] |} in
  switch_symlink ["lab"] ["ctrl"] "new" "work" s
  = (Raise (FileExistsError ["ctrl"; "work"]), s)
  ∧ switch_symlink ["lab"] ["ctrl"] "none" "work" s = (Ok tt, s).
Proof.
  intros f s. split.
  - refine (eq_trans
              (switch_symlink_dangling ["lab"] ["ctrl"] "new" "work" ["lab"; "old"]
                 s _ _) _);
      vm_compute; reflexivity.
  - refine (eq_trans
              (switch_symlink_dangling ["lab"] ["ctrl"] "none" "work" ["lab"; "old"]
                 s _ _) _);
      vm_compute; reflexivity.
Defined.

(** X3. When [control_path / sym_dir] is a directory, [switch_symlink]
    raises from the unlink and has changed and printed nothing; the new
    link is not attempted. *)
Theorem switch_symlink_on_directory (L C : Path) (E k : string) (s : State) :
  fs (world s) !! joinpath C k = Some Dir →
  switch_symlink L C E k s = (Raise (IsADirectoryError (joinpath C k)), s).
Proof.
  intros Hdir. destruct s as [[f d r] tr]. simpl in *.
  unfold switch_symlink.
  unfold mbind, M_bind, mret, M_ret, get_fs, fs_op, print, emit, bound_method.
  simpl.
  assert (Hex : path_exists f (joinpath C k) = true).
  { apply is_dir_path_exists. by apply is_dir_real. }
  rewrite Hex. simpl. unfold unlink. by rewrite Hdir.
Qed.

Lemma switch_symlink_on_directory_witness :
  let f : FS := {[ ["ctrl"] := Dir; ["ctrl"; "archive"] := Dir;
                   ["lab"] := Dir; ["lab"; "run1"] := Dir ]} in
  let s := {| world := {| fs := f; cwd := ["ctrl"]; repos := ∅ |}; trace := [] |} in
  switch_symlink ["lab"] ["ctrl"] "run1" "archive" s
  = (Raise (IsADirectoryError ["ctrl"; "archive"]), s).
Proof.
  intros f s.
  exact (switch_symlink_on_directory ["lab"] ["ctrl"] "run1" "archive" s eq_refl).
Defined.

(** X4. [switch_symlink] never changes the file system silently: a run
    that printed nothing has left the world as it found it. *)
Theorem switch_symlink_reports_changes (L C : Path) (E k : string) (s : State) :
  trace (snd (switch_symlink L C E k s)) = trace s →
  world (snd (switch_symlink L C E k s)) = world s.
Proof.
  destruct s as [[f d r] tr].
  unfold switch_symlink.
  unfold mbind, M_bind, mret, M_ret, get_fs, fs_op, print, emit, set_fs. simpl.
  destruct (path_exists f (joinpath C k) && bound_method is_symlink (joinpath C k));
    simpl.
  - destruct (unlink f (joinpath C k)) as [f1|e]; simpl; [|done].
    destruct (path_exists f1 (joinpath L E)); simpl.
    + destruct (symlink_to f1 (joinpath C k) (joinpath L E)); simpl; intros H.
      * rewrite <- app_assoc in H. by apply app_cons_ne in H.
      * by apply app_cons_ne in H.
    + intros H. by apply app_cons_ne in H.
  - destruct (path_exists f (joinpath L E)); simpl; [|done].
    destruct (symlink_to f (joinpath C k) (joinpath L E)); simpl; [|done].
    intros H. by apply app_cons_ne in H.
Qed.

Lemma switch_symlink_reports_changes_witness :
  let f : FS := {[ ["ctrl"] := Dir; ["lab"] := Dir ]} in
  let s := {| world := {| fs := f; cwd := ["ctrl"]; repos := ∅ |}; trace := [] |} in
  world (snd (switch_symlink ["lab"] ["ctrl"] "run1" "work" s)) = world s.
Proof.
  intros f s.
  apply (switch_symlink_reports_changes ["lab"] ["ctrl"] "run1" "work" s).
  vm_compute. reflexivity.
Defined.

(** The link made by [switch_symlink] to an experiment directory that is a
    directory: the entries it leaves. *)
Lemma switch_symlink_links (L C : Path) (E k : string) (s : State) :
  fs (world s) !! C = Some Dir →
  fs (world s) !! joinpath L E = Some Dir →
  fs (world s) !! joinpath C k = None
  ∨ (path_exists (fs (world s)) (joinpath C k) = true
     ∧ fs (world s) !! joinpath C k ≠ Some Dir) →
  let s' := snd (switch_symlink L C E k s) in
  fst (switch_symlink L C E k s) = Ok tt
  ∧ fs (world s') !! joinpath C k = Some (Link (joinpath L E))
  ∧ fs (world s') !! joinpath L E = Some Dir.
Proof.
  intros HC HD Hsym s'.
  destruct (switch_symlink_sync L C E k s HC Hsym) as [Hok Hlink].
  assert (Hne : joinpath L E ≠ joinpath C k).
  { intros Heq. rewrite Heq in HD. destruct Hsym as [H|[_ H]]; congruence. }
  assert (Hex : path_exists (delete (joinpath C k) (fs (world s))) (joinpath L E)
                = true).
  { apply is_dir_path_exists, is_dir_real. by rewrite lookup_delete_ne. }
  rewrite Hex in Hlink. fold s' in Hlink.
  split; [exact Hok|]. split; [exact Hlink|].
  subst s'. rewrite switch_symlink_world. destruct s as [[f d r] tr]. simpl in *.
  by rewrite switch_fs_other.
Qed.

(** X5. With the control directory in place, the experiment directory a
    directory, and the name [control_path / sym_dir] free or held by a file
    or a live link, [switch_symlink] returns and the name is then a symlink
    that resolves to the experiment directory. *)
Theorem switch_symlink_resolves (L C : Path) (E k : string) (s : State) :
  fs (world s) !! C = Some Dir →
  fs (world s) !! joinpath L E = Some Dir →
  fs (world s) !! joinpath C k = None
  ∨ (path_exists (fs (world s)) (joinpath C k) = true
     ∧ fs (world s) !! joinpath C k ≠ Some Dir) →
  let s' := snd (switch_symlink L C E k s) in
  fst (switch_symlink L C E k s) = Ok tt
  ∧ is_symlink (fs (world s')) (joinpath C k) = true
  ∧ resolve (fs (world s')) (joinpath C k) = joinpath L E
  ∧ is_dir (fs (world s')) (joinpath C k) = true.
Proof.
  intros HC HD Hsym s'.
  destruct (switch_symlink_links L C E k s HC HD Hsym) as (Hok & Hlink & HD').
  fold s' in Hlink, HD'.
  assert (Hres : resolve (fs (world s')) (joinpath C k) = joinpath L E).
  { unfold resolve, MAXSYMLINKS. rewrite chase_step, Hlink, chase_step.
    by rewrite HD'. }
  split; [exact Hok|]. split; [|split; [exact Hres|]].
  - unfold is_symlink. by rewrite Hlink.
  - unfold is_dir, stat. rewrite Hres. by rewrite HD'.
Qed.

Lemma switch_symlink_resolves_witness :
  let f : FS :=
    {[ ["ctrl"] := Dir; ["ctrl"; "archive"] := Link ["lab"; "run0"];
       ["lab"] := Dir; ["lab"; "run0"] := Dir; ["lab"; "run1"] := Dir ]} in
  let s := {| world := {| fs := f; cwd := ["ctrl"]; repos := ∅ |}; trace := [] |} in
  resolve (fs (world (snd (switch_symlink ["lab"] ["ctrl"] "run1" "archive" s))))
          ["ctrl"; "archive"]
  = ["lab"; "run1"].
Proof.
  intros f s.
  refine (proj1 (proj2 (proj2
            (switch_symlink_resolves ["lab"] ["ctrl"] "run1" "archive" s _ _ _)))).
  - reflexivity.
  - reflexivity.
  - right. split; [vm_compute; reflexivity | vm_compute; discriminate].
Defined.

(** ** [add_restart_to_config]: what it leaves alone, errors, repetition *)

Lemma write_file_other (f f' : FS) (p q : Path) (c : string) :
  write_file f p c = Ok f' → q ≠ resolve f p → f' !! q = f !! q.
Proof.
  unfold write_file. intros H Hne.
  destruct (f !! resolve f p) as [[c0| |t]|] eqn:Hq; try discriminate.
  - injection H as <-. by rewrite lookup_insert_ne.
  - destruct (is_dir f (parent (resolve f p))); [|discriminate].
    injection H as <-. by rewrite lookup_insert_ne.
Qed.

(** X6. [add_restart_to_config] changes nothing but the file that
    [config_path] resolves to: every other path holds what it held (so a
    symlinked configuration file stays a symlink and its target is the
    file rewritten), no directory is removed, and the working directory
    and the repositories are as they were. *)
Theorem add_restart_to_config_frame (E : Env) (restart_path config_path : Path)
    (s : State) :
  let s' := snd (add_restart_to_config E restart_path config_path s) in
  cwd (world s') = cwd (world s)
  ∧ repos (world s') = repos (world s)
  ∧ (∀ p, p ≠ resolve (fs (world s)) config_path →
          fs (world s') !! p = fs (world s) !! p)
  ∧ (∀ d, fs (world s) !! d = Some Dir → fs (world s') !! d = Some Dir).
Proof.
  intros s'.
  assert (Hdirs : ∀ d, fs (world s) !! d = Some Dir → fs (world s') !! d = Some Dir).
  { intros d Hd. by apply (keeps_dir_add_restart_to_config d E). }
  split; [|split; [|split; [|exact Hdirs]]]; clear Hdirs; subst s';
    destruct s as [[f d r] tr]; simpl;
    unfold add_restart_to_config, yaml_load_path, yaml_dump_path;
    unfold mbind, M_bind, mret, M_ret, get_fs, fs_op, lift, warn, print, emit, set_fs;
    simpl;
    destruct (negb (path_exists f restart_path) || negb (is_dir f restart_path));
    simpl; try done;
    destruct (read_file f config_path) as [text|e]; simpl; try done;
    destruct (yaml_load E text) as [y|e]; simpl; try done;
    destruct (yaml_setitem y "restart" (str_path restart_path)) as [y'|e];
    simpl; try done;
    destruct (write_file f config_path (yaml_dump E y')) as [f'|e] eqn:Hw;
    simpl; try done.
  intros p Hne. by apply (write_file_other _ _ _ _ _ Hw).
Qed.

(** X7. With a valid restart directory, nothing is written unless the
    configuration file can be read and loads as a mapping: a read error or
    a parse error is raised as it is, and a document that is not a mapping
    (an empty file loads as null) raises [TypeError] at the assignment; in
    each case the world is untouched and nothing is printed. *)
Theorem add_restart_to_config_unloadable (E : Env) (restart_path config_path : Path)
    (s : State) :
  is_dir (fs (world s)) restart_path = true →
  (∀ e, read_file (fs (world s)) config_path = Raise e →
        add_restart_to_config E restart_path config_path s = (Raise e, s))
  ∧ (∀ text e, read_file (fs (world s)) config_path = Ok text →
               yaml_load E text = Raise e →
               add_restart_to_config E restart_path config_path s = (Raise e, s))
  ∧ (∀ text y, read_file (fs (world s)) config_path = Ok text →
               yaml_load E text = Ok y →
               (∀ items, y ≠ YMap items) →
               ∃ msg, add_restart_to_config E restart_path config_path s
                      = (Raise (TypeError msg), s)).
Proof.
  intros Hdir. destruct s as [[f d r] tr]. simpl in *.
  assert (Hcond : negb (path_exists f restart_path) || negb (is_dir f restart_path)
                  = false).
  { by rewrite Hdir, (is_dir_path_exists _ _ Hdir). }
  unfold add_restart_to_config, yaml_load_path, yaml_dump_path.
  unfold mbind, M_bind, mret, M_ret, get_fs, fs_op, lift, warn, print, emit. simpl.
  rewrite Hcond. simpl. split; [|split].
  - intros e He. rewrite He. reflexivity.
  - intros text e Hr Hl. rewrite Hr. simpl. rewrite Hl. reflexivity.
  - intros text y Hr Hl Hmap. rewrite Hr. simpl. rewrite Hl. simpl.
    destruct y as [|sc|els|items]; simpl; eauto.
    by destruct (Hmap items).
Qed.

(** On the example installation: with the configuration file missing, and
    with an empty one. *)
Lemma add_restart_to_config_unloadable_witness :
  let empty := {| world := set_fs (<[joinpath Demo.ctrl "config.yaml" := File ""]>
                                    Demo.files) Demo.w0;
                  trace := [] |} in
  add_restart_to_config Demo.env ["scratch"; "restart"] (joinpath Demo.ctrl "nope.yaml")
    Demo.s0
  = (Raise (FileNotFoundError "/home/ctrl/nope.yaml"), Demo.s0)
  ∧ ∃ msg, add_restart_to_config Demo.env ["scratch"; "restart"]
             (joinpath Demo.ctrl "config.yaml") empty
           = (Raise (TypeError msg), empty).
Proof.
  intros empty. split.
  - apply (add_restart_to_config_unloadable Demo.env ["scratch"; "restart"]
             (joinpath Demo.ctrl "nope.yaml") Demo.s0);
      vm_compute; reflexivity.
  - apply (proj2 (proj2 (add_restart_to_config_unloadable Demo.env
                           ["scratch"; "restart"] (joinpath Demo.ctrl "config.yaml")
                           empty eq_refl)) "" YNull);
      [vm_compute; reflexivity | vm_compute; reflexivity | discriminate].
Defined.

Lemma items_set_idempotent (items : list Item) (k v : string) :
  items_set (items_set items k v) k v = items_set items k v.
Proof.
  induction items as [|[c|k' v'] rest IH]; simpl.
  - by rewrite bool_decide_eq_true_2.
  - by rewrite IH.
  - destruct (bool_decide (k' = k)) eqn:Hk; simpl; rewrite Hk; [done | by rewrite IH].
Qed.

(** Replacing the content of a regular file changes no link, so look-ups
    find the same entries. *)
Lemma chase_rewrite_file (n : nat) (f : FS) (q p : Path) (c c' : string) :
  f !! q = Some (File c) → chase n (<[q := File c']> f) p = chase n f p.
Proof.
  intros Hq. revert p. induction n as [|n IH]; intros p; simpl; [done|].
  destruct (decide (q = p)) as [->|Hne].
  - by rewrite lookup_insert_eq, Hq.
  - rewrite lookup_insert_ne by done.
    destruct (f !! p) as [[| |t]|]; auto.
Qed.

Lemma stat_rewrite_file (f : FS) (q p : Path) (c c' : string) :
  f !! q = Some (File c) →
  stat (<[q := File c']> f) p
  = if decide (resolve f p = q) then Some (File c') else stat f p.
Proof.
  intros Hq. unfold stat, resolve.
  rewrite (chase_rewrite_file _ _ _ _ _ _ Hq). fold (resolve f p).
  destruct (decide (resolve f p = q)) as [->|Hne].
  - by rewrite lookup_insert_eq.
  - by rewrite lookup_insert_ne.
Qed.

(** The run of [add_restart_to_config] that rewrites the file. *)
Lemma add_restart_to_config_writes (E : Env) (restart_path config_path : Path)
    (s : State) (text : string) (items : list Item) :
  is_dir (fs (world s)) restart_path = true →
  read_file (fs (world s)) config_path = Ok text →
  yaml_load E text = Ok (YMap items) →
  world (snd (add_restart_to_config E restart_path config_path s))
  = set_fs (<[resolve (fs (world s)) config_path
              := File (yaml_dump E (YMap (items_set items "restart"
                                            (str_path restart_path))))]>
              (fs (world s)))
           (world s).
Proof.
  intros Hdir Hread Hload. destruct s as [[f d r] tr]. simpl in *.
  unfold add_restart_to_config, yaml_load_path, yaml_dump_path.
  unfold mbind, M_bind, mret, M_ret, get_fs, fs_op, lift, print, emit. simpl.
  rewrite Hdir, (is_dir_path_exists _ _ Hdir). simpl.
  rewrite Hread, Hload. simpl.
  unfold write_file. unfold read_file, stat in Hread.
  destruct (f !! resolve f config_path) as [[c| |t]|] eqn:Hq; try discriminate.
  reflexivity.
Qed.

(** X8. Injecting the same restart path a second time changes nothing:
    where the YAML library loads back the document it has dumped, the
    world after two calls of [add_restart_to_config] is the world after
    one, the [restart] entry being replaced in place and not added again. *)
Theorem add_restart_to_config_twice (E : Env) (restart_path config_path : Path)
    (s : State) (text : string) (items : list Item) :
  is_dir (fs (world s)) restart_path = true →
  read_file (fs (world s)) config_path = Ok text →
  yaml_load E text = Ok (YMap items) →
  (let written := YMap (items_set items "restart" (str_path restart_path)) in
   yaml_load E (yaml_dump E written) = Ok written) →
  let once := snd (add_restart_to_config E restart_path config_path s) in
  let twice := snd (add_restart_to_config E restart_path config_path once) in
  world twice = world once.
Proof.
  intros Hdir Hread Hload Hround once twice. simpl in Hround.
  pose proof (add_restart_to_config_writes E restart_path config_path s text items
                Hdir Hread Hload) as H1.
  fold once in H1.
  set (f := fs (world s)) in *.
  set (q := resolve f config_path) in *.
  set (doc := yaml_dump E (YMap (items_set items "restart" (str_path restart_path))))
    in *.
  assert (Hq : ∃ c, f !! q = Some (File c)).
  { unfold read_file, stat in Hread. fold q in Hread.
    destruct (f !! q) as [[c| |t]|]; try discriminate. by exists c. }
  destruct Hq as [c Hq].
  assert (Hfs1 : fs (world once) = <[q := File doc]> f) by (by rewrite H1).
  assert (Hdir1 : is_dir (fs (world once)) restart_path = true).
  { rewrite Hfs1. unfold is_dir. rewrite (stat_rewrite_file _ _ _ _ _ Hq).
    destruct (decide (resolve f restart_path = q)) as [Heq|Hne]; [|exact Hdir].
    unfold is_dir, stat in Hdir. rewrite Heq, Hq in Hdir. discriminate. }
  assert (Hres1 : resolve (fs (world once)) config_path = q).
  { rewrite Hfs1. unfold resolve. by rewrite (chase_rewrite_file _ _ _ _ _ _ Hq). }
  assert (Hread1 : read_file (fs (world once)) config_path = Ok doc).
  { unfold read_file. rewrite Hfs1, (stat_rewrite_file _ _ _ _ _ Hq).
    fold q. by rewrite decide_True. }
  pose proof (add_restart_to_config_writes E restart_path config_path once doc
                (items_set items "restart" (str_path restart_path))
                Hdir1 Hread1 Hround) as H2.
  fold twice in H2. rewrite H2, Hres1, items_set_idempotent. fold doc.
  rewrite Hfs1, insert_insert_eq, H1. by destruct (world s).
Qed.

Lemma add_restart_to_config_twice_witness :
  let cfg := joinpath Demo.ctrl "config.yaml" in
  let once := snd (add_restart_to_config Demo.env ["scratch"; "restart"] cfg Demo.s0) in
  world (snd (add_restart_to_config Demo.env ["scratch"; "restart"] cfg once))
  = world once.
Proof.
  intros cfg once.
  apply (add_restart_to_config_twice Demo.env ["scratch"; "restart"] cfg Demo.s0
           (blob_data Demo.config_blob)
           [Comment "# model run"; Entry "model" "access-om2"]);
    vm_compute; reflexivity.
Defined.

(** ** [checkout_branch]: failures, order and outcome *)

(** X9. An exception raised by git checkout leaves [checkout_branch]
    unchanged: nothing is printed, no other collaborator is called, and the
    world is the one git left. *)
Theorem checkout_branch_git_failure (E : Env) (branch_name : string)
    (is_new_branch is_new_experiment keep_uuid : bool)
    (start_point : option string) (restart_path config_path control_path : option Path)
    (model_type : option string) (lab_path : option Path) (s : State)
    (cp : Path) (s1 : State) (e : Exn) (w2 : World) :
  control_path_step E config_path control_path s = (Ok cp, s1) →
  git_checkout_branch E cp branch_name is_new_branch start_point (world s1)
  = (Raise e, w2) →
  checkout_branch E branch_name is_new_branch is_new_experiment keep_uuid
    start_point restart_path config_path control_path model_type lab_path s
  = (Raise e,
     {| world := w2;
        trace :=
          trace s1
          ++ [Called (CGitCheckoutBranch cp branch_name is_new_branch start_point)] |}).
Proof.
  intros Hstep Hgit. unfold checkout_branch.
  fold (control_path_step E config_path control_path).
  unfold mbind at 1, M_bind at 1. rewrite Hstep.
  unfold mbind at 1, M_bind at 1. rewrite call_run, Hgit. reflexivity.
Qed.

(** On the example installation: checking out a branch that does not
    exist. *)
Lemma checkout_branch_git_failure_witness :
  checkout_branch Demo.env "nope" false false false None None None (Some Demo.ctrl)
    None None Demo.s0
  = (Raise (CollaboratorError "unknown branch"),
     {| world := Demo.w0;
        trace := [Called (CGitCheckoutBranch Demo.ctrl "nope" false None)] |}).
Proof.
  exact (checkout_branch_git_failure Demo.env "nope" false false false None None None
           (Some Demo.ctrl) None None Demo.s0 Demo.ctrl Demo.s0
           (CollaboratorError "unknown branch") Demo.w0 eq_refl eq_refl).
Defined.

(** Past metadata setup, what is left of [checkout_branch] is the restart
    injection and the two symlink switches. *)
Lemma checkout_branch_tail (E : Env) (branch_name : string)
    (is_new_branch is_new_experiment keep_uuid : bool)
    (start_point : option string) (restart_path config_path control_path : option Path)
    (model_type : option string) (lab_path : option Path) (s : State)
    (cp cfg : Path) (lab : Lab) (m' : Meta) (s5 : State) :
  after_metadata_setup E branch_name is_new_branch is_new_experiment keep_uuid
    start_point config_path control_path model_type lab_path s cp cfg lab m' s5 →
  checkout_branch E branch_name is_new_branch is_new_experiment keep_uuid
    start_point restart_path config_path control_path model_type lab_path s
  = (match restart_path with
     | Some restart_path => add_restart_to_config E restart_path cfg
     | None => mret tt
     end;;
     switch_symlink (archive_path lab) cp (experiment_name m') "archive";;
     switch_symlink (work_path lab) cp (experiment_name m') "work") s5.
Proof.
  intros (s1 & w2 & w3 & m & w4 & w5 & Hstep & Hgit & Hcfg & -> & Hlab & Hmeta
          & Hsetup & ->).
  unfold checkout_branch.
  fold (control_path_step E config_path control_path).
  unfold mbind at 1, M_bind at 1. rewrite Hstep.
  unfold mbind at 1, M_bind at 1. rewrite call_run, Hgit. simpl.
  unfold mbind at 1, M_bind at 1. rewrite check_config_path_run. simpl.
  rewrite Hcfg.
  unfold mbind at 1, M_bind at 1. rewrite call_run. simpl. rewrite Hlab. simpl.
  unfold mbind at 1, M_bind at 1. rewrite call_run. simpl. rewrite Hmeta. simpl.
  unfold mbind at 1, M_bind at 1. rewrite call_run. simpl. rewrite Hsetup. simpl.
  rewrite <- !app_assoc. reflexivity.
Qed.

(** The result and the world of [switch_symlink] do not depend on the
    trace so far, which is only extended. *)
Lemma switch_symlink_trace (L C : Path) (E k : string) (w : World)
    (t : list Event) :
  switch_symlink L C E k {| world := w; trace := t |}
  = (fst (switch_symlink L C E k {| world := w; trace := [] |}),
     {| world := world (snd (switch_symlink L C E k {| world := w; trace := [] |}));
        trace := t ++ trace (snd (switch_symlink L C E k
                                    {| world := w; trace := [] |})) |}).
Proof.
  destruct w as [f d r].
  unfold switch_symlink.
  unfold mbind, M_bind, mret, M_ret, get_fs, fs_op, print, emit, set_fs. simpl.
  destruct (path_exists f (joinpath C k) && bound_method is_symlink (joinpath C k));
    simpl.
  - destruct (unlink f (joinpath C k)) as [f1|e]; simpl;
      [|by rewrite app_nil_r].
    destruct (path_exists f1 (joinpath L E)); simpl; [|done].
    destruct (symlink_to f1 (joinpath C k) (joinpath L E)); simpl;
      by rewrite <- ?app_assoc.
  - destruct (path_exists f (joinpath L E)); simpl; [|by rewrite app_nil_r].
    destruct (symlink_to f (joinpath C k) (joinpath L E)); simpl;
      by rewrite ?app_nil_r.
Qed.

Lemma switch_both_trace (La Lw C : Path) (E : string) (w : World) (t : list Event) :
  let both := switch_symlink La C E "archive";; switch_symlink Lw C E "work" in
  both {| world := w; trace := t |}
  = (fst (both {| world := w; trace := [] |}),
     {| world := world (snd (both {| world := w; trace := [] |}));
        trace := t ++ trace (snd (both {| world := w; trace := [] |})) |}).
Proof.
  intros both. subst both. unfold mbind, M_bind.
  rewrite (switch_symlink_trace La C E "archive" w t).
  destruct (switch_symlink La C E "archive" {| world := w; trace := [] |})
    as [[[]|e] [w1 t1]]; simpl; [|done].
  rewrite (switch_symlink_trace Lw C E "work" w1 (t ++ t1)).
  rewrite (switch_symlink_trace Lw C E "work" w1 t1).
  simpl. by rewrite app_assoc.
Qed.

(** X10. A restart path that is missing or not a directory does not stop
    the checkout: once metadata setup is done, the run warns and goes on
    to switch the symlinks, and it ends with the result, the world and the
    printed lines of the same checkout with no restart path. *)
Theorem checkout_branch_bad_restart_goes_on (E : Env) (branch_name : string)
    (is_new_branch is_new_experiment keep_uuid : bool)
    (start_point : option string) (restart_path : Path)
    (config_path control_path : option Path)
    (model_type : option string) (lab_path : option Path) (s : State)
    (cp cfg : Path) (lab : Lab) (m' : Meta) (s5 : State) :
  after_metadata_setup E branch_name is_new_branch is_new_experiment keep_uuid
    start_point config_path control_path model_type lab_path s cp cfg lab m' s5 →
  is_dir (fs (world s5)) restart_path = false →
  let given := checkout_branch E branch_name is_new_branch is_new_experiment
                 keep_uuid start_point (Some restart_path) config_path control_path
                 model_type lab_path s in
  let plain := checkout_branch E branch_name is_new_branch is_new_experiment
                 keep_uuid start_point None config_path control_path
                 model_type lab_path s in
  fst given = fst plain
  ∧ world (snd given) = world (snd plain)
  ∧ printed (trace (snd given)) = printed (trace (snd plain))
  ∧ Warned (restart_warning restart_path) ∈ trace (snd given).
Proof.
  intros Hafter Hbad given plain. subst given plain.
  rewrite (checkout_branch_tail _ _ _ _ _ _ (Some restart_path) _ _ _ _ _ _ _ _ _ _
             Hafter).
  rewrite (checkout_branch_tail _ _ _ _ _ _ None _ _ _ _ _ _ _ _ _ _ Hafter).
  destruct s5 as [w5 t5]. simpl in Hbad.
  set (both := switch_symlink (archive_path lab) cp (experiment_name m') "archive";;
               switch_symlink (work_path lab) cp (experiment_name m') "work").
  assert (Hgiven : (add_restart_to_config E restart_path cfg;; both)
                     {| world := w5; trace := t5 |}
                   = both {| world := w5;
                             trace := t5 ++ [Warned (restart_warning restart_path)] |}).
  { unfold mbind at 1, M_bind at 1. unfold add_restart_to_config.
    unfold mbind at 1, M_bind at 1. unfold get_fs, warn, emit. simpl.
    rewrite Hbad, orb_true_r. reflexivity. }
  assert (Hplain : (mret tt;; both) {| world := w5; trace := t5 |}
                   = both {| world := w5; trace := t5 |}) by reflexivity.
  rewrite Hgiven, Hplain.
  pose proof (switch_both_trace (archive_path lab) (work_path lab) cp
                (experiment_name m') w5) as Hboth. simpl in Hboth. fold both in Hboth.
  rewrite (Hboth (t5 ++ [Warned (restart_warning restart_path)])), (Hboth t5).
  simpl. repeat split.
  - rewrite !printed_app. simpl. by rewrite ?app_nil_l, ?app_nil_r.
  - apply elem_of_app. left. apply elem_of_app. right. apply list_elem_of_singleton.
    reflexivity.
Qed.

(** On the example installation: checking out [expt1] with a restart path
    that is not there still links the archive. *)
Lemma checkout_branch_bad_restart_goes_on_witness :
  let run := checkout_branch Demo.env "expt1" false false false None
               (Some ["scratch"; "none"]) None (Some Demo.ctrl) None None Demo.s0 in
  fst run = Ok tt
  ∧ fs (world (snd run)) !! joinpath Demo.ctrl "archive"
    = Some (Link ["lab"; "archive"; "ctrl-expt1"])
  ∧ Warned (restart_warning ["scratch"; "none"]) ∈ trace (snd run).
Proof.
  intros run.
  pose (w5 := snd (Demo.checkout Demo.ctrl "expt1" false None Demo.w0)).
  pose (lab := {| archive_path := ["lab"; "archive"]; work_path := ["lab"; "work"] |}).
  pose (m' := {| experiment_name := "ctrl-expt1"; meta_uuid := Some "abc-123" |}).
  pose (cfg := joinpath Demo.ctrl "config.yaml").
  pose (s5 := {| world := w5;
                 trace := [Called (CGitCheckoutBranch Demo.ctrl "expt1" false None);
                           Called (CLaboratory None cfg None);
                           Called (CMetadata ["lab"; "archive"] "expt1" cfg);
                           Called (CMetadataSetup false false)] |}).
  destruct (checkout_branch_bad_restart_goes_on Demo.env "expt1" false false false
              None ["scratch"; "none"] None (Some Demo.ctrl) None None Demo.s0
              Demo.ctrl cfg lab m' s5)
    as (Hres & Hworld & _ & Hwarn).
  - exists Demo.s0, w5, w5, m', w5, w5. vm_compute. repeat split; reflexivity.
  - vm_compute. reflexivity.
  - subst run.
    split; [exact (eq_trans Hres eq_refl)|].
    split; [|exact Hwarn].
    refine (eq_trans (f_equal (fun w => fs w !! joinpath Demo.ctrl "archive") Hworld) _).
    vm_compute. reflexivity.
Defined.



(** A link straight to an entry that is not a link. *)
Lemma path_exists_link (f : FS) (p t : Path) :
  f !! p = Some (Link t) →
  (f !! t = Some Dir ∨ ∃ c, f !! t = Some (File c)) →
  path_exists f p = true.
Proof.
  intros H Ht. unfold path_exists, stat, resolve, MAXSYMLINKS.
  rewrite chase_step, H, chase_step.
  destruct Ht as [Ht|[c Ht]]; rewrite !Ht; reflexivity.
Qed.

(** A link to a link to a directory. *)
Lemma path_exists_link2 (f : FS) (p t u : Path) :
  f !! p = Some (Link t) → f !! t = Some (Link u) → f !! u = Some Dir →
  path_exists f p = true.
Proof.
  intros H Ht Hu. unfold path_exists, stat, resolve, MAXSYMLINKS.
  rewrite chase_step, H, chase_step, Ht, chase_step, !Hu. reflexivity.
Qed.

Lemma replaceable_not_dir (f : FS) (p : Path) : replaceable f p → f !! p ≠ Some Dir.
Proof. intros [H|[[c H]|(t & H & _)]]; rewrite H; discriminate. Qed.

Lemma replaceable_live (f : FS) (p : Path) :
  replaceable f p →
  f !! p = None ∨ (path_exists f p = true ∧ f !! p ≠ Some Dir).
Proof.
  intros Hr. pose proof (replaceable_not_dir f p Hr) as Hnd.
  destruct Hr as [H|[[c H]|(t & H & Ht)]]; [by left | right | right].
  - split; [by apply (path_exists_file _ _ c) | done].
  - split; [|done]. by apply (path_exists_link _ _ t).
Qed.

Lemma joinpath_inj (p q : Path) (a b : string) :
  joinpath p a = joinpath q b → p = q ∧ a = b.
Proof. unfold joinpath. intros H. by apply app_inj_tail in H. Qed.

(** X12. The outcome of a checkout.  Once metadata setup is done, with no
    restart path given, the control directory in place, both experiment
    directories there, and each of the names [archive] and [work] free or
    held by a file or by a link straight to a file or a directory:
    [checkout_branch] returns, and [archive] and [work] are symlinks that
    resolve to the experiment's archive and work directories. *)
Theorem checkout_branch_links_both (E : Env) (branch_name : string)
    (is_new_branch is_new_experiment keep_uuid : bool)
    (start_point : option string) (config_path control_path : option Path)
    (model_type : option string) (lab_path : option Path) (s : State)
    (cp cfg : Path) (lab : Lab) (m' : Meta) (s5 : State) :
  after_metadata_setup E branch_name is_new_branch is_new_experiment keep_uuid
    start_point config_path control_path model_type lab_path s cp cfg lab m' s5 →
  let f5 := fs (world s5) in
  let archive_dir := joinpath (archive_path lab) (experiment_name m') in
  let work_dir := joinpath (work_path lab) (experiment_name m') in
  f5 !! cp = Some Dir →
  f5 !! archive_dir = Some Dir →
  f5 !! work_dir = Some Dir →
  replaceable f5 (joinpath cp "archive") →
  replaceable f5 (joinpath cp "work") →
  let run := checkout_branch E branch_name is_new_branch is_new_experiment
               keep_uuid start_point None config_path control_path model_type
               lab_path s in
  fst run = Ok tt
  ∧ is_symlink (fs (world (snd run))) (joinpath cp "archive") = true
  ∧ resolve (fs (world (snd run))) (joinpath cp "archive") = archive_dir
  ∧ is_symlink (fs (world (snd run))) (joinpath cp "work") = true
  ∧ resolve (fs (world (snd run))) (joinpath cp "work") = work_dir.
Proof.
  intros Hafter f5 Da Dw Hcp HDa HDw Hra Hrw run. subst run.
  rewrite (checkout_branch_tail _ _ _ _ _ _ None _ _ _ _ _ _ _ _ _ _ Hafter).
  set (Sa := joinpath cp "archive") in *.
  set (Sw := joinpath cp "work") in *.
  assert (Hsasw : Sa ≠ Sw).
  { intros H. apply joinpath_inj in H as [_ H]. discriminate. }
  assert (HDaSa : Da ≠ Sa).
  { intros H. apply (replaceable_not_dir _ _ Hra). by rewrite <- H. }
  assert (HDaSw : Da ≠ Sw).
  { intros H. apply (replaceable_not_dir _ _ Hrw). by rewrite <- H. }
  assert (HDwSa : Dw ≠ Sa).
  { intros H. apply (replaceable_not_dir _ _ Hra). by rewrite <- H. }
  assert (HcpSa : cp ≠ Sa) by (intros H; symmetry in H; by apply joinpath_ne in H).
  (* the archive switch *)
  destruct (switch_symlink_links (archive_path lab) cp (experiment_name m') "archive"
              s5 Hcp HDa (replaceable_live _ _ Hra))
    as (Hok_a & _ & _).
  destruct (switch_symlink_sync (archive_path lab) cp (experiment_name m') "archive"
              s5 Hcp (replaceable_live _ _ Hra))
    as (_ & Hlink_a).
  fold Sa Da f5 in Hlink_a.
  assert (Hex_a : path_exists (delete Sa f5) Da = true).
  { apply is_dir_path_exists, is_dir_real. by rewrite lookup_delete_ne. }
  rewrite Hex_a in Hlink_a.
  pose proof (switch_symlink_world (archive_path lab) cp (experiment_name m')
                "archive" s5) as Hw_a.
  fold Sa Da f5 in Hw_a.
  assert (Hfull : ∀ s6 s7,
             switch_symlink (archive_path lab) cp (experiment_name m') "archive" s5
             = (Ok tt, s6) →
             switch_symlink (work_path lab) cp (experiment_name m') "work" s6
             = (Ok tt, s7) →
             (mret tt;;
              switch_symlink (archive_path lab) cp (experiment_name m') "archive";;
              switch_symlink (work_path lab) cp (experiment_name m') "work") s5
             = (Ok tt, s7)).
  { intros s6 s7 H1 H2. unfold mbind, M_bind, mret, M_ret. rewrite H1. exact H2. }
  destruct (switch_symlink (archive_path lab) cp (experiment_name m') "archive" s5)
    as [ra s6] eqn:Hrun_a.
  simpl in Hok_a, Hlink_a, Hw_a. subst ra.
  set (f6 := fs (world s6)) in *.
  assert (Hother6 : ∀ p, p ≠ Sa → f6 !! p = f5 !! p).
  { intros p Hne. subst f6. rewrite Hw_a. destruct (world s5). simpl.
    by apply switch_fs_other. }
  (* the work name in the file system the archive switch left *)
  assert (Hlive_w : f6 !! Sw = None ∨ (path_exists f6 Sw = true ∧ f6 !! Sw ≠ Some Dir)).
  { rewrite (Hother6 Sw) by done.
    pose proof (replaceable_not_dir _ _ Hrw) as Hnd.
    destruct Hrw as [H|[[c H]|(t & H & Ht)]]; [by left | right | right].
    - split; [|done]. apply (path_exists_file _ _ c). by rewrite Hother6.
    - split; [|done].
      destruct (decide (t = Sa)) as [->|Hne].
      + apply (path_exists_link2 _ _ Sa Da).
        * by rewrite Hother6.
        * exact Hlink_a.
        * by rewrite Hother6.
      + apply (path_exists_link _ _ t).
        * by rewrite Hother6.
        * by rewrite Hother6. }
  assert (Hcp6 : f6 !! cp = Some Dir) by (by rewrite Hother6).
  assert (HDw6 : f6 !! Dw = Some Dir) by (by rewrite Hother6).
  destruct (switch_symlink_links (work_path lab) cp (experiment_name m') "work"
              s6 Hcp6 HDw6 Hlive_w)
    as (Hok_w & Hlink_w & HDw7).
  pose proof (switch_symlink_world (work_path lab) cp (experiment_name m') "work" s6)
    as Hw_w.
  fold Sw Dw f6 in Hw_w, Hlink_w, HDw7.
  destruct (switch_symlink (work_path lab) cp (experiment_name m') "work" s6)
    as [rw s7] eqn:Hrun_w.
  simpl in *. subst rw.
  assert (Hother7 : ∀ p, p ≠ Sw → fs (world s7) !! p = f6 !! p).
  { intros p Hne. rewrite Hw_w. subst f6. destruct (world s6). simpl.
    by apply switch_fs_other. }
  assert (Hlink7 : fs (world s7) !! Sa = Some (Link Da)).
  { by rewrite Hother7. }
  assert (HDa7 : fs (world s7) !! Da = Some Dir).
  { rewrite Hother7 by done. by rewrite Hother6. }
  rewrite (Hfull s6 s7 eq_refl Hrun_w). simpl.
  split; [done|]. split; [|split; [|split]].
  - unfold is_symlink. by rewrite Hlink7.
  - unfold resolve, MAXSYMLINKS. rewrite chase_step, Hlink7, chase_step.
    by rewrite HDa7.
  - unfold is_symlink. by rewrite Hlink_w.
  - unfold resolve, MAXSYMLINKS. rewrite chase_step, Hlink_w, chase_step.
    by rewrite HDw7.
Qed.

(** On the example installation, with both experiment directories in the
    laboratory and a stale [work] link to replace. *)
Lemma checkout_branch_links_both_witness :
  let f : FS :=
    <[joinpath Demo.ctrl "work" := Link ["lab"; "work"]]>
      (<[ ["lab"; "work"; "ctrl-expt1"] := Dir ]> Demo.files) in
  let s := {| world := set_fs f Demo.w0; trace := [] |} in
  let run := checkout_branch Demo.env "expt1" false false false None None None
               (Some Demo.ctrl) None None s in
  fst run = Ok tt
  ∧ resolve (fs (world (snd run))) (joinpath Demo.ctrl "archive")
    = ["lab"; "archive"; "ctrl-expt1"]
  ∧ resolve (fs (world (snd run))) (joinpath Demo.ctrl "work")
    = ["lab"; "work"; "ctrl-expt1"].
Proof.
  intros f s run.
  pose (w5 := snd (Demo.checkout Demo.ctrl "expt1" false None (world s))).
  pose (lab := {| archive_path := ["lab"; "archive"]; work_path := ["lab"; "work"] |}).
  pose (m' := {| experiment_name := "ctrl-expt1"; meta_uuid := Some "abc-123" |}).
  pose (cfg := joinpath Demo.ctrl "config.yaml").
  pose (s5 := {| world := w5;
                 trace := [Called (CGitCheckoutBranch Demo.ctrl "expt1" false None);
                           Called (CLaboratory None cfg None);
                           Called (CMetadata ["lab"; "archive"] "expt1" cfg);
                           Called (CMetadataSetup false false)] |}).
  destruct (checkout_branch_links_both Demo.env "expt1" false false false
              None None (Some Demo.ctrl) None None s Demo.ctrl cfg lab m' s5)
    as (Hok & _ & Ha & _ & Hw).
  - exists s, w5, w5, m', w5, w5. vm_compute. repeat split; reflexivity.
  - vm_compute. reflexivity.
  - vm_compute. reflexivity.
  - vm_compute. reflexivity.
  - left. vm_compute. reflexivity.
  - right. right. exists ["lab"; "work"]. split; [|left]; vm_compute; reflexivity.
  - subst run. split; [exact Hok|]. split; [exact Ha | exact Hw].
Defined.

Lemma calls_of_app (a b : list Event) : calls_of (a ++ b) = calls_of a ++ calls_of b.
Proof. unfold calls_of. apply omap_app. Qed.

Lemma calls_of_output (out : list Event) : Forall is_output out → calls_of out = [].
Proof.
  induction 1 as [|ev out Hev _ IH]; [reflexivity|].
  destruct ev as [t|t|c]; simpl in *; try exact IH. contradiction.
Qed.

Lemma control_path_step_calls (E : Env) (config_path control_path : option Path)
    (s : State) :
  ∃ pre, trace (snd (control_path_step E config_path control_path s)) = trace s ++ pre
         ∧ calls_of pre = match control_path with
                          | None => [CReadConfig config_path]
                          | Some _ => []
                          end.
Proof.
  unfold control_path_step. destruct control_path as [p|]; simpl.
  - exists []. by rewrite app_nil_r.
  - exists [Called (CReadConfig config_path)].
    unfold get_control_path, mbind, M_bind. rewrite call_run.
    by destruct (read_config E config_path (world s)) as [[[cp0|]|e] w].
Qed.

(** The collaborator calls of a run of [checkout_branch], as an equation on
    the run. *)
Lemma checkout_branch_order (E : Env) (branch_name : string)
    (is_new_branch is_new_experiment keep_uuid : bool)
    (start_point : option string) (restart_path config_path control_path : option Path)
    (model_type : option string) (lab_path : option Path) (s : State)
    (r : Result unit) (s' : State) :
  checkout_branch E branch_name is_new_branch is_new_experiment keep_uuid
    start_point restart_path config_path control_path model_type lab_path s
  = (r, s') →
  ∃ added cp cfg lab,
    let all :=
      match control_path with
      | None => [CReadConfig config_path]
      | Some _ => []
      end
      ++ [CGitCheckoutBranch cp branch_name is_new_branch start_point;
          CLaboratory model_type cfg lab_path;
          CMetadata (archive_path lab) branch_name cfg;
          CMetadataSetup keep_uuid (is_new_experiment || is_new_branch)] in
    trace s' = trace s ++ added
    ∧ calls_of added `prefix_of` all
    ∧ (r = Ok tt → calls_of added = all).
Proof.
  intros Hrun. unfold checkout_branch in Hrun.
  destruct (control_path_step_calls E config_path control_path s)
    as (pre & Hpre & Hpre_c).
  set (first := match control_path with
                | None => [CReadConfig config_path]
                | Some _ => []
                end) in *.
  set (nolab := {| archive_path := []; work_path := [] |}).
  fold (control_path_step E config_path control_path) in Hrun.
  unfold mbind at 1, M_bind at 1 in Hrun.
  destruct (control_path_step E config_path control_path s)
    as [[cp|e] s1] eqn:Hstep; simpl in Hpre.
  2:{ injection Hrun as <- <-. exists pre, [], [], nolab. simpl.
      rewrite Hpre_c. split; [done|]. split; [by apply prefix_app_r | discriminate]. }
  unfold mbind at 1, M_bind at 1 in Hrun. rewrite call_run in Hrun.
  set (gc := CGitCheckoutBranch cp branch_name is_new_branch start_point) in *.
  destruct (git_checkout_branch E cp branch_name is_new_branch start_point (world s1))
    as [[[]|e] w2]; simpl in Hrun.
  2:{ injection Hrun as <- <-. exists (pre ++ [Called gc]), cp, [], nolab. simpl.
      rewrite Hpre, app_assoc, calls_of_app, Hpre_c. simpl.
      split; [done|]. split; [|discriminate].
      apply prefix_app, prefix_cons, prefix_nil. }
  unfold mbind at 1, M_bind at 1 in Hrun.
  rewrite check_config_path_run in Hrun. simpl in Hrun.
  set (cfg := resolved_config_path E config_path w2) in Hrun.
  destruct (path_exists (fs w2) cfg); simpl in Hrun.
  2:{ injection Hrun as <- <-.
      exists (pre ++ [Called gc; Printed NO_CONFIG_FOUND_MESSAGE]), cp, [], nolab.
      simpl. rewrite Hpre, <- !app_assoc, !calls_of_app, Hpre_c. simpl.
      split; [done|]. split; [|discriminate].
      apply prefix_app, prefix_cons, prefix_nil. }
  unfold mbind at 1, M_bind at 1 in Hrun. rewrite call_run in Hrun. simpl in Hrun.
  destruct (Laboratory E model_type cfg lab_path w2) as [[lab|e] w3]; simpl in Hrun.
  2:{ injection Hrun as <- <-.
      exists (pre ++ [Called gc; Called (CLaboratory model_type cfg lab_path)]),
        cp, cfg, nolab.
      simpl. rewrite Hpre, <- !app_assoc, !calls_of_app, Hpre_c. simpl.
      split; [done|]. split; [|discriminate].
      apply prefix_app, prefix_cons, prefix_cons, prefix_nil. }
  unfold mbind at 1, M_bind at 1 in Hrun. rewrite call_run in Hrun. simpl in Hrun.
  destruct (Metadata E (archive_path lab) branch_name cfg w3) as [[m|e] w4];
    simpl in Hrun.
  2:{ injection Hrun as <- <-.
      exists (pre ++ [Called gc; Called (CLaboratory model_type cfg lab_path);
                      Called (CMetadata (archive_path lab) branch_name cfg)]),
        cp, cfg, lab.
      simpl. rewrite Hpre, <- !app_assoc, !calls_of_app, Hpre_c. simpl.
      split; [done|]. split; [|discriminate].
      apply prefix_app, prefix_cons, prefix_cons, prefix_cons, prefix_nil. }
  unfold mbind at 1, M_bind at 1 in Hrun. rewrite call_run in Hrun. simpl in Hrun.
  set (calls := [Called gc; Called (CLaboratory model_type cfg lab_path);
                 Called (CMetadata (archive_path lab) branch_name cfg);
                 Called (CMetadataSetup keep_uuid
                           (is_new_experiment || is_new_branch))]).
  destruct (Metadata_setup E m keep_uuid (is_new_experiment || is_new_branch) w4)
    as [[m'|e] w5]; simpl in Hrun.
  2:{ injection Hrun as <- <-. exists (pre ++ calls), cp, cfg, lab.
      simpl. rewrite Hpre, <- !app_assoc, !calls_of_app, Hpre_c. simpl.
      split; [done|]. split; [done | discriminate]. }
  match type of Hrun with
  | _ {| world := w5; trace := ?tr |} = _ =>
      destruct (quiet_after_setup E restart_path cfg cp lab (experiment_name m')
                  {| world := w5; trace := tr |}) as (out & Hout & Fout)
  end.
  rewrite Hrun in Hout. simpl in Hout.
  assert (Hc : calls_of (pre ++ calls ++ out)
               = first ++ [gc; CLaboratory model_type cfg lab_path;
                           CMetadata (archive_path lab) branch_name cfg;
                           CMetadataSetup keep_uuid
                             (is_new_experiment || is_new_branch)]).
  { rewrite !calls_of_app, Hpre_c, (calls_of_output _ Fout). reflexivity. }
  exists (pre ++ calls ++ out), cp, cfg, lab.
  cbv zeta. rewrite Hc. fold first.
  split; [by rewrite Hout, Hpre, <- !app_assoc|]. split; done.
Qed.

(** X13. [checkout_branch] calls its collaborators in one order and each
    at most once: [read_config] when no control path is given, then git
    checkout, then [Laboratory], then [Metadata], then metadata setup; a
    run stops calling at the first step that raises, and a run that
    returns has made every call. *)
Theorem checkout_branch_call_order (E : Env) (branch_name : string)
    (is_new_branch is_new_experiment keep_uuid : bool)
    (start_point : option string) (restart_path config_path control_path : option Path)
    (model_type : option string) (lab_path : option Path) (s : State) :
  let run := checkout_branch E branch_name is_new_branch is_new_experiment keep_uuid
               start_point restart_path config_path control_path model_type
               lab_path s in
  ∃ added cp cfg lab,
    let all :=
      match control_path with
      | None => [CReadConfig config_path]
      | Some _ => []
      end
      ++ [CGitCheckoutBranch cp branch_name is_new_branch start_point;
          CLaboratory model_type cfg lab_path;
          CMetadata (archive_path lab) branch_name cfg;
          CMetadataSetup keep_uuid (is_new_experiment || is_new_branch)] in
    trace (snd run) = trace s ++ added
    ∧ calls_of added `prefix_of` all
    ∧ (fst run = Ok tt → calls_of added = all).
Proof.
  intros run. destruct run as [r s'] eqn:Hrun.
  exact (checkout_branch_order _ _ _ _ _ _ _ _ _ _ _ _ _ _ Hrun).
Qed.

(** On the example installation: a checkout that returns, with no control
    path given. *)
Lemma checkout_branch_call_order_witness :
  calls_of (trace (snd (checkout_branch Demo.env "expt1" false false false None None
                          None None None None Demo.s0)))
  = [CReadConfig None;
     CGitCheckoutBranch Demo.ctrl "expt1" false None;
     CLaboratory None (joinpath Demo.ctrl "config.yaml") None;
     CMetadata ["lab"; "archive"] "expt1" (joinpath Demo.ctrl "config.yaml");
     CMetadataSetup false false].
Proof.
  destruct (checkout_branch_call_order Demo.env "expt1" false false false None None
              None None None None Demo.s0)
    as (added & cp & cfg & lab & Htr & Hpre & Hall).
  rewrite Htr. simpl. rewrite (Hall eq_refl).
  assert (Hget : calls_of added
                 = calls_of (trace (snd (checkout_branch Demo.env "expt1" false false
                                           false None None None None None None
                                           Demo.s0)))) by (by rewrite Htr).
  rewrite (Hall eq_refl) in Hget. vm_compute in Hget. exact Hget.
Defined.

(** ** [clone]: a failed git clone, and the creation of a branch *)

(** X14. When git clone raises, [clone] raises the same exception at once:
    the working directory is not changed, nothing is printed and no other
    collaborator is called. *)
Theorem clone_git_failure (E : Env) (repository : string) (directory : Path)
    (branch new_branch_name : option string) (keep_uuid : bool)
    (model_type : option string) (config_path lab_path restart_path : option Path)
    (s : State) (e : Exn) (w1 : World) :
  git_clone E repository directory branch (world s) = (Raise e, w1) →
  clone E repository directory branch new_branch_name keep_uuid model_type
    config_path lab_path restart_path s
  = (Raise e,
     {| world := w1;
        trace := trace s ++ [Called (CGitClone repository directory branch)] |}).
Proof.
  intros Hclone. unfold clone.
  unfold mbind at 1, M_bind at 1. rewrite call_run, Hclone. reflexivity.
Qed.

(** On the example installation: cloning into a directory that exists. *)
Lemma clone_git_failure_witness :
  clone Demo.env "url" Demo.ctrl None None false None None None None Demo.s0
  = (Raise (CollaboratorError "destination path already exists"),
     {| world := Demo.w0; trace := [Called (CGitClone "url" Demo.ctrl None)] |}).
Proof.
  exact (clone_git_failure Demo.env "url" Demo.ctrl None None false None None None
           None Demo.s0 (CollaboratorError "destination path already exists")
           Demo.w0 eq_refl).
Defined.

(** The calls of a run of [clone] that creates a branch. *)
Lemma clone_new_branch_calls (E : Env) (repository : string)
    (directory : Path) (branch : option string) (new_branch_name : string)
    (keep_uuid : bool) (model_type : option string)
    (config_path lab_path restart_path : option Path)
    (s : State) (r : Result unit) (s' : State) :
  clone E repository directory branch (Some new_branch_name) keep_uuid model_type
    config_path lab_path restart_path s = (r, s') →
  let w1 := snd (git_clone E repository directory branch (world s)) in
  let control_path := resolve (fs w1) directory in
  ∃ added,
    trace s' = trace s ++ added
    ∧ (∀ k n, (k, n) ∈ setup_calls added → k = keep_uuid ∧ n = true)
    ∧ (∀ call, call ∈ git_checkout_calls added →
         call = (control_path, new_branch_name, true, None))
    ∧ (r = Ok tt →
       setup_calls added = [(keep_uuid, true)]
       ∧ git_checkout_calls added = [(control_path, new_branch_name, true, None)]).
Proof.
  intros Hrun w1 control_path.
  unfold clone in Hrun.
  unfold mbind at 1, M_bind at 1 in Hrun. rewrite call_run in Hrun. fold w1 in Hrun.
  set (c1 := Called (CGitClone repository directory branch)) in Hrun.
  destruct (fst (git_clone E repository directory branch (world s))) as [[]|e].
  2:{ injection Hrun as <- <-. exists [c1]. simpl. no_calls. }
  unfold mbind at 1, M_bind at 1 in Hrun. unfold get_fs at 1 in Hrun.
  simpl in Hrun. fold control_path in Hrun.
  unfold mbind at 1, M_bind at 1 in Hrun. unfold getcwd at 1 in Hrun. simpl in Hrun.
  destruct (fs w1 !! cwd w1) as [[c| |t]|] eqn:Hd; simpl in Hrun.
  1,3,4: injection Hrun as <- <-; exists [c1]; simpl; no_calls.
  unfold mbind at 1, M_bind at 1 in Hrun. unfold try_finally in Hrun.
  unfold mbind at 1, M_bind at 1 in Hrun.
  set (s1 := {| world := w1; trace := trace s ++ [c1] |}) in Hrun.
  pose proof (chdir_trace control_path s1) as Htr2.
  destruct (chdir control_path s1) as [[[]|e] s2] eqn:Hcd; simpl in Htr2.
  2:{ pose proof (chdir_trace (cwd w1) s2) as Htr3.
      exists [c1].
      destruct (chdir (cwd w1) s2) as [[[]|e'] s3]; simpl in *;
        injection Hrun as <- <-; rewrite Htr3, Htr2; no_calls. }
  destruct (checkout_branch E new_branch_name true false keep_uuid None restart_path
              config_path (Some control_path) model_type lab_path s2)
    as [rc s4] eqn:Hco.
  destruct (checkout_branch_calls _ _ _ _ _ _ _ _ _ _ _ _ _ _ Hco)
    as (co & Hco_tr & Hco_most & Hco_ret & Hco_git).
  specialize (Hco_git control_path eq_refl). simpl in Hco_most, Hco_ret.
  pose proof (chdir_trace (cwd w1) s4) as Htr5.
  assert (Hs : ∀ post, Forall is_output post →
                setup_calls (c1 :: co ++ post) = setup_calls co).
  { intros post Hpost. change (c1 :: co ++ post) with ([c1] ++ co ++ post).
    rewrite !setup_calls_app, (setup_calls_output _ Hpost). simpl.
    by rewrite app_nil_r. }
  assert (Hg : ∀ post, Forall is_output post →
                git_checkout_calls (c1 :: co ++ post)
                = [(control_path, new_branch_name, true, @None string)]).
  { intros post Hpost. change (c1 :: co ++ post) with ([c1] ++ co ++ post).
    rewrite !git_checkout_calls_app, Hco_git, (git_checkout_calls_output _ Hpost).
    done. }
  assert (Hflags : ∀ k n, (k, n) ∈ setup_calls co → k = keep_uuid ∧ n = true).
  { intros k n Hin. destruct Hco_most as [H|H]; rewrite H in Hin.
    - by apply elem_of_nil in Hin.
    - apply list_elem_of_singleton in Hin. by injection Hin as -> ->. }
  set (line := Printed ("To change directory to control directory run:
  cd " +:+ str_path directory)).
  assert (Hshape : ∀ post, Forall is_output post →
             (rc = Ok tt ∨ r ≠ Ok tt) →
             trace s' = trace s ++ c1 :: co ++ post →
             ∃ added,
               trace s' = trace s ++ added
               ∧ (∀ k n, (k, n) ∈ setup_calls added → k = keep_uuid ∧ n = true)
               ∧ (∀ call, call ∈ git_checkout_calls added →
                    call = (control_path, new_branch_name, true, None))
               ∧ (r = Ok tt →
                  setup_calls added = [(keep_uuid, true)]
                  ∧ git_checkout_calls added
                    = [(control_path, new_branch_name, true, None)])).
  { intros post Hpost Hr Htr. exists (c1 :: co ++ post).
    rewrite (Hs post Hpost), (Hg post Hpost).
    split; [exact Htr|]. split; [exact Hflags|]. split.
    - intros call Hin. by apply list_elem_of_singleton in Hin.
    - intros ->. destruct Hr as [->|Hr]; [|done].
      split; [by apply Hco_ret | done]. }
  destruct (chdir (cwd w1) s4) as [[[]|e'] s5]; simpl in Hrun, Htr5.
  - destruct rc as [[]|e]; simpl in Hrun; injection Hrun as <- <-.
    + apply (Hshape [line]); [by repeat constructor | by left |].
      simpl. by rewrite Htr5, Hco_tr, Htr2, <- !app_assoc.
    + apply (Hshape []); [constructor | by right |].
      rewrite app_nil_r. by rewrite Htr5, Hco_tr, Htr2, <- !app_assoc.
  - injection Hrun as <- <-.
    apply (Hshape []); [constructor | by right |].
    rewrite app_nil_r. by rewrite Htr5, Hco_tr, Htr2, <- !app_assoc.
Qed.

(** X15. In a run of [clone] with a new branch name, git checkout is asked
    to create that branch in the cloned control directory, with no start
    point, whatever the [branch] argument: the new branch starts from what
    git clone checked out.  Metadata setup is called with [keep_uuid] as
    given and [is_new_experiment = true], and with no other flags; both
    calls are made once in a run that returns. *)
Theorem clone_creates_new_branch (E : Env) (repository : string)
    (directory : Path) (branch : option string) (new_branch_name : string)
    (keep_uuid : bool) (model_type : option string)
    (config_path lab_path restart_path : option Path) (s : State) :
  let run := clone E repository directory branch (Some new_branch_name) keep_uuid
               model_type config_path lab_path restart_path s in
  let w1 := snd (git_clone E repository directory branch (world s)) in
  let control_path := resolve (fs w1) directory in
  ∃ added,
    trace (snd run) = trace s ++ added
    ∧ (∀ k n, (k, n) ∈ setup_calls added → k = keep_uuid ∧ n = true)
    ∧ (∀ call, call ∈ git_checkout_calls added →
         call = (control_path, new_branch_name, true, None))
    ∧ (fst run = Ok tt →
       setup_calls added = [(keep_uuid, true)]
       ∧ git_checkout_calls added = [(control_path, new_branch_name, true, None)]).
Proof.
  intros run. destruct run as [r s'] eqn:Hrun.
  exact (clone_new_branch_calls _ _ _ _ _ _ _ _ _ _ _ _ _ Hrun).
Qed.

(** On the example installation: cloning [expt1] into a new branch
    [expt2], keeping the UUID. *)
Lemma clone_creates_new_branch_witness :
  let run := clone Demo.env "url" ["home"; "new"] (Some "expt1") (Some "expt2") true
               None None None None Demo.s0 in
  fst run = Ok tt
  ∧ setup_calls (trace (snd run)) = [(true, true)]
  ∧ git_checkout_calls (trace (snd run)) = [(["home"; "new"], "expt2", true, None)]
  ∧ active_branch_name (world (snd run)) ["home"; "new"] = Some "expt2".
Proof.
  intros run.
  assert (Hok : fst run = Ok tt) by (vm_compute; reflexivity).
  split; [exact Hok|].
  destruct (clone_creates_new_branch Demo.env "url" ["home"; "new"] (Some "expt1")
              "expt2" true None None None None Demo.s0)
    as (added & Htr & _ & _ & Hret).
  fold run in Htr, Hret. destruct (Hret Hok) as [Hs Hg].
  rewrite Htr. simpl. split; [exact Hs|]. split; [exact Hg|].
  vm_compute. reflexivity.
Defined.

(** ** [print_branch_metadata], [list_branches] and [check_config_path] *)





(** X17. In the plain mode a metadata file that does not load as a mapping
    stops the summary: for a branch with a configuration file, a parse
    error is raised as it is, and a document that is not a mapping (an
    empty file loads as null) raises [AttributeError] at the look-up of the
    UUID; nothing is printed for the branch. *)
Theorem print_branch_metadata_unreadable (E : Env) (branch : Head) (text : string)
    (s : State) :
  has_blob "config.yaml" branch = true →
  blob_content "metadata.yaml" (head_blobs branch) = Some text →
  (∀ e, yaml_load E text = Raise e →
        print_branch_metadata E branch false s = (Raise e, s))
  ∧ (∀ y, yaml_load E text = Ok y → (∀ items, y ≠ YMap items) →
          ∃ msg, print_branch_metadata E branch false s
                 = (Raise (AttributeError msg), s)).
Proof.
  intros Hcfg Hmeta. split.
  - intros e Hload. rewrite print_branch_metadata_run. unfold summary_spec.
    by rewrite Hcfg, Hmeta, Hload.
  - intros y Hload Hmap. rewrite print_branch_metadata_run. unfold summary_spec.
    rewrite Hcfg, Hmeta, Hload. simpl.
    destruct y as [|sc|els|items]; simpl; eauto.
    by destruct (Hmap items).
Qed.

Lemma print_branch_metadata_unreadable_witness :
  let blank :=
    {| head_path := "refs/heads/blank"; head_name := "blank";
       head_blobs := [Demo.config_blob;
                      {| blob_name := "metadata.yaml"; blob_data := "" |}] |} in
  ∃ msg, print_branch_metadata Demo.env blank false Demo.s0
         = (Raise (AttributeError msg), Demo.s0).
Proof.
  intros blank.
  apply (proj2 (print_branch_metadata_unreadable Demo.env blank "" Demo.s0
                  eq_refl eq_refl) YNull);
    [reflexivity | discriminate].
Defined.

(** X18. [check_config_path] raises exactly when [Path.exists()] is false
    for the path given, or for the default file name under the working
    directory: so for a missing path and for a dangling symlink, and for
    nothing that exists, whatever its kind.  It changes nothing of the
    world; it prints the guidance when it raises and nothing otherwise,
    and then returns the path it checked. *)
Theorem check_config_path_raises_iff (E : Env) (config_path : option Path)
    (s : State) :
  let p := resolved_config_path E config_path (world s) in
  let run := check_config_path E config_path s in
  ((∃ e, fst run = Raise e) ↔ path_exists (fs (world s)) p = false)
  ∧ world (snd run) = world s
  ∧ (path_exists (fs (world s)) p = true → run = (Ok p, s))
  ∧ (path_exists (fs (world s)) p = false →
     trace (snd run) = trace s ++ [Printed NO_CONFIG_FOUND_MESSAGE]).
Proof.
  intros p run. subst run. rewrite check_config_path_run. fold p.
  destruct (path_exists (fs (world s)) p); simpl; repeat split; try done.
  - intros [e He]. discriminate.
  - intros _. eauto.
Qed.

(** On an example: a configuration path that is a dangling symlink. *)
Lemma check_config_path_raises_iff_witness :
  let f : FS := {[ ["ctrl"] := Dir; ["ctrl"; "config.yaml"] := Link ["gone"] ]} in
  let s := {| world := {| fs := f; cwd := ["ctrl"]; repos := ∅ |}; trace := [] |} in
  ∃ e, fst (check_config_path Demo.env None s) = Raise e.
Proof.
  intros f s.
  apply (proj1 (check_config_path_raises_iff Demo.env None s)).
  vm_compute. reflexivity.
Defined.

(** ** The audit lines of [switch_symlink], and the working directory *)

(** X19. What [switch_symlink] reports is what it did: with the control
    directory in place and the name free or held by a file or a live
    link, it prints the removal exactly when an entry was there, naming
    the path the old entry resolved to, then the addition exactly when the
    experiment directory exists, and nothing else. *)
Theorem switch_symlink_audit (L C : Path) (E k : string) (s : State) :
  fs (world s) !! C = Some Dir →
  fs (world s) !! joinpath C k = None
  ∨ (path_exists (fs (world s)) (joinpath C k) = true
     ∧ fs (world s) !! joinpath C k ≠ Some Dir) →
  let f := fs (world s) in
  let sym_path := joinpath C k in
  let dir_path := joinpath L E in
  trace (snd (switch_symlink L C E k s))
  = trace s
    ++ (if path_exists f sym_path
        then [Printed ("Removed " +:+ k +:+ " symlink to "
                       +:+ str_path (resolve f sym_path))]
        else [])
    ++ (if path_exists (delete sym_path f) dir_path
        then [Printed ("Added " +:+ k +:+ " symlink to " +:+ str_path dir_path)]
        else []).
Proof.
  intros Hdir Hsym f sym_path dir_path. subst f sym_path dir_path.
  destruct s as [[f d r] tr]. simpl in *.
  assert (Hcre : ∀ g, g !! joinpath C k = None → g !! C = Some Dir →
                      symlink_to g (joinpath C k) (joinpath L E)
                      = Ok (<[joinpath C k := Link (joinpath L E)]> g)).
  { intros g Hg HC. unfold symlink_to, lexists.
    by rewrite Hg, parent_joinpath, (is_dir_real _ _ HC). }
  unfold switch_symlink.
  unfold mbind, M_bind, mret, M_ret, get_fs, fs_op, print, emit, set_fs,
    bound_method. simpl.
  destruct Hsym as [Habs|[Hex Hnd]].
  - rewrite (path_exists_absent _ _ Habs). simpl.
    rewrite (delete_id _ _ Habs).
    destruct (path_exists f (joinpath L E)); simpl; [|by rewrite app_nil_r].
    by rewrite (Hcre f Habs Hdir).
  - rewrite Hex. simpl. unfold unlink.
    destruct (f !! joinpath C k) as [[c| |t]|] eqn:Hp; try done; simpl.
    + destruct (path_exists (delete (joinpath C k) f) (joinpath L E)); simpl;
        [|done].
      rewrite Hcre; [simpl; by rewrite <- app_assoc | apply lookup_delete_eq |].
      rewrite lookup_delete_ne; [done | apply joinpath_ne].
    + destruct (path_exists (delete (joinpath C k) f) (joinpath L E)); simpl;
        [|done].
      rewrite Hcre; [simpl; by rewrite <- app_assoc | apply lookup_delete_eq |].
      rewrite lookup_delete_ne; [done | apply joinpath_ne].
    + by rewrite path_exists_absent in Hex.
Qed.

(** On an example: the [archive] link is switched from one run to the
    next, and the removal names the old run. *)
Lemma switch_symlink_audit_witness :
  let f : FS :=
    {[ ["ctrl"] := Dir; ["ctrl"; "archive"] := Link ["lab"; "run0"];
       ["lab"] := Dir; ["lab"; "run0"] := Dir; ["lab"; "run1"] := Dir ]} in
  let s := {| world := {| fs := f; cwd := ["ctrl"]; repos := ∅ |}; trace := [] |} in
  trace (snd (switch_symlink ["lab"] ["ctrl"] "run1" "archive" s))
  = [Printed "Removed archive symlink to /lab/run0";
     Printed "Added archive symlink to /lab/run1"].
Proof.
  intros f s.
  refine (eq_trans (switch_symlink_audit ["lab"] ["ctrl"] "run1" "archive" s _ _) _).
  - reflexivity.
  - right. split; [vm_compute; reflexivity | vm_compute; discriminate].
  - vm_compute. reflexivity.
Defined.

Lemma keeps_cwd_ret {A : Type} (a : A) : keeps_cwd (mret a : M A).
Proof. by intros s. Qed.

Lemma keeps_cwd_print (text : string) : keeps_cwd (print text).
Proof. by intros s. Qed.

Lemma keeps_cwd_call {A : Type} (c : Call) (f : World → Result A * World) :
  leaves_cwd f → keeps_cwd (call c f).
Proof. intros Hf s. rewrite call_run. simpl. apply Hf. Qed.

Lemma keeps_cwd_bind {A B : Type} (m : M A) (k : A → M B) :
  keeps_cwd m → (∀ a, keeps_cwd (k a)) → keeps_cwd (m ≫= k).
Proof.
  intros Hm Hk s. unfold mbind, M_bind.
  specialize (Hm s).
  destruct (m s) as [[a|e] s1]; simpl in *; [|done].
  by rewrite Hk.
Qed.

Lemma keeps_cwd_switch_symlink (L C : Path) (E k : string) :
  keeps_cwd (switch_symlink L C E k).
Proof.
  intros s. rewrite switch_symlink_world. by destruct (world s).
Qed.

Lemma keeps_cwd_add_restart_to_config (E : Env) (restart_path config_path : Path) :
  keeps_cwd (add_restart_to_config E restart_path config_path).
Proof.
  intros [[f d r] tr]. simpl.
  unfold add_restart_to_config, yaml_load_path, yaml_dump_path.
  unfold mbind, M_bind, mret, M_ret, get_fs, fs_op, lift, warn, print, emit, set_fs.
  simpl.
  destruct (negb (path_exists f restart_path) || negb (is_dir f restart_path));
    simpl; try done.
  destruct (read_file f config_path) as [text|e]; simpl; try done.
  destruct (yaml_load E text) as [y|e]; simpl; try done.
  destruct (yaml_setitem y "restart" (str_path restart_path)) as [y'|e];
    simpl; try done.
  by destruct (write_file f config_path (yaml_dump E y')).
Qed.

(** X20. [checkout_branch] does not change the working directory: when
    none of its collaborators does, the working directory after the run,
    returned or raised, is the one before.  (So the default configuration
    path is looked up where the caller stands, which is why [clone] changes
    directory around the call.) *)
Theorem checkout_branch_keeps_cwd (E : Env) (branch_name : string)
    (is_new_branch is_new_experiment keep_uuid : bool)
    (start_point : option string) (restart_path config_path control_path : option Path)
    (model_type : option string) (lab_path : option Path) (s : State) :
  collaborators_leave_cwd E →
  cwd (world (snd (checkout_branch E branch_name is_new_branch is_new_experiment
                     keep_uuid start_point restart_path config_path control_path
                     model_type lab_path s)))
  = cwd (world s).
Proof.
  intros (Hread & Hgit & Hlab & Hmeta & Hsetup). revert s.
  change (keeps_cwd (checkout_branch E branch_name is_new_branch is_new_experiment
                       keep_uuid start_point restart_path config_path control_path
                       model_type lab_path)).
  unfold checkout_branch.
  apply keeps_cwd_bind.
  { destruct control_path; [apply keeps_cwd_ret|].
    unfold get_control_path. apply keeps_cwd_bind; [by apply keeps_cwd_call|].
    intros [p|]; [apply keeps_cwd_ret | by intros s]. }
  intros cp.
  apply keeps_cwd_bind; [by apply keeps_cwd_call | intros _].
  apply keeps_cwd_bind.
  { intros s. rewrite check_config_path_run. simpl. by destruct (path_exists _ _). }
  intros cfg.
  apply keeps_cwd_bind; [by apply keeps_cwd_call | intros lab].
  apply keeps_cwd_bind; [by apply keeps_cwd_call | intros m].
  apply keeps_cwd_bind; [by apply keeps_cwd_call | intros m'].
  apply keeps_cwd_bind.
  { destruct restart_path;
      [apply keeps_cwd_add_restart_to_config | apply keeps_cwd_ret]. }
  intros _.
  apply keeps_cwd_bind; [apply keeps_cwd_switch_symlink | intros _].
  apply keeps_cwd_switch_symlink.
Qed.

Lemma demo_leaves_cwd : collaborators_leave_cwd Demo.env.
Proof.
  split; [|split; [|split; [|split]]]; simpl.
  - intros cfg w. unfold Demo.control_of_config. by destruct cfg.
  - intros cp b nb sp w. unfold Demo.checkout.
    destruct (repos w !! cp) as [r|]; [|done].
    destruct nb.
    + destruct (Demo.find_head b (repo_heads r)); [done|].
      by destruct (match sp with Some _ => _ | None => _ end).
    + by destruct (Demo.find_head b (repo_heads r)).
  - by intros mt cfg lab w.
  - by intros archive b cfg w.
  - by intros m k n w.
Qed.

Lemma checkout_branch_keeps_cwd_witness :
  cwd (world (snd (checkout_branch Demo.env "expt1" false false false None None None
                     None None None Demo.s0)))
  = Demo.ctrl.
Proof.
  exact (checkout_branch_keeps_cwd Demo.env "expt1" false false false None None None
           None None None Demo.s0 demo_leaves_cwd).
Defined.
